(** * Scan session manager of the virtual book catalog

    A shallow embedding of [src/hooks/useScanner.tsx] (the [useScanner] hook)
    and of the [handleDetection] validator of the [BarcodeScanner] component,
    with the properties of the scan-session specification stated over it;
    then of the rest of the component (its visibility effect, its camera
    selector) and of the page that consumes the scanner, [pages/AddBook.tsx].

    Modelling conventions.
    - JavaScript strings are [string]s; [toLowerCase] acts on the letters
      [A]-[Z], which is what ECMAScript does on that range, and [\d] is the
      class [0]-[9].
    - The hook's React state, its refs and the part of the browser it touches
      (the preview element, the running capture streams, pending timers) form
      one record, [Session].  A hook function reads React state through the
      values its closure captured at render time ([Render]) and writes it
      through the setters; refs are read and written in place.
    - The host platform and the decoding engine answer through an explicit
      oracle ([Platform]); every operation is run to completion through its
      [await]s.
    - Every operation also yields the ordered list of the effects it
      performed ([Event]). *)

From Stdlib Require Import String Ascii List Bool Arith Lia.
From Stdlib Require Import ZArith DecimalString DecimalNat.
Import ListNotations.
Open Scope string_scope.
Open Scope list_scope.

(** ** JavaScript string helpers *)

Module Js.

(** [!!s] on a string: the empty string is the only falsy one. *)
Definition truthy (s : string) : bool := negb (String.eqb s "").

(** [a || b] where [a] may be [undefined] (the result of [x?.f]). *)
Definition or_else (a : option string) (b : string) : string :=
  match a with
  | Some v => if truthy v then v else b
  | None => b
  end.

Definition lower_ascii (c : ascii) : ascii :=
  let n := nat_of_ascii c in
  if ((65 <=? n) && (n <=? 90))%nat then ascii_of_nat (n + 32) else c.

Fixpoint toLowerCase (s : string) : string :=
  match s with
  | EmptyString => EmptyString
  | String c t => String (lower_ascii c) (toLowerCase t)
  end.

(** [s.includes(needle)]: [needle] occurs in [s] at some position. *)
Fixpoint includes (s needle : string) : bool :=
  String.prefix needle s
  || match s with
     | EmptyString => false
     | String _ t => includes t needle
     end.

Definition isDigit (c : ascii) : bool :=
  let n := nat_of_ascii c in ((48 <=? n) && (n <=? 57))%nat.

End Js.

(** ** The regular expression of [handleDetection]

    [/^(?:\d{10}|\d{13})$/] has no flags: [^] and [$] match only at the two
    ends of the input and [\d] is the class [0-9].  The fragment of the
    regular-expression language it uses is embedded with a backtracking
    matcher that returns every suffix a match can leave. *)

Module Regex.

Inductive t : Type :=
| Digit : t                 (* \d *)
| Alt : t -> t -> t         (* a|b *)
| Rep : nat -> t -> t.      (* a{n} *)

Fixpoint iter {A : Type} (n : nat) (f : A -> A) (x : A) : A :=
  match n with
  | O => x
  | S k => iter k f (f x)
  end.

Fixpoint run (r : t) (s : string) : list string :=
  match r with
  | Digit =>
      match s with
      | String c rest => if Js.isDigit c then [rest] else []
      | EmptyString => []
      end
  | Alt a b => run a s ++ run b s
  | Rep n a => iter n (flat_map (run a)) [s]
  end.

(** [/^r$/.test(s)]: some match of [r] starting at index 0 consumes all of
    [s]. *)
Definition test_anchored (r : t) (s : string) : bool :=
  existsb (fun rest => String.eqb rest "") (run r s).

End Regex.

(** [const isbnRegex = /^(?:\d{10}|\d{13})$/;] *)
Definition isbnRegex : Regex.t :=
  Regex.Alt (Regex.Rep 10 Regex.Digit) (Regex.Rep 13 Regex.Digit).

Definition isbnRegex_test (result : string) : bool :=
  Regex.test_anchored isbnRegex result.

(** The specification's wording: exactly 10 or exactly 13 characters, each a
    decimal digit. *)
Definition all_digits (s : string) : Prop :=
  Forall (fun c => Js.isDigit c = true) (list_ascii_of_string s).

Definition ten_or_thirteen_digits (s : string) : Prop :=
  (String.length s = 10 \/ String.length s = 13) /\ all_digits s.

(** ** Data model *)

(** [MediaDeviceInfo], restricted to the two fields the hook reads.  Both are
    declared [string] in the DOM typings, so the [?.] on [label] never meets
    [undefined]. *)
Record MediaDeviceInfo : Type := mkDevice {
  deviceId : string;
  label : string
}.

(** A [MediaStream], identified by the order in which the platform handed it
    out.  Stopping all its tracks releases the camera. *)
Definition Stream : Type := nat.

(** What a hook function captured from the render that created it: the
    values of the React state variables it reads. *)
Record Render : Type := mkRender {
  r_isScanning : bool;
  r_cameras : list MediaDeviceInfo;
  r_selectedCamera : string
}.

(** Callbacks handed to [setTimeout(_, 500)]. *)
Inductive Timer : Type :=
| CaptureStream : Timer                     (* useScanner.tsx, lines 159-164 *)
| RestartScan : Render -> string -> Timer.  (* useScanner.tsx, lines 188-192 *)

(** The decoding engine behind [readerRef.current]: the device its
    continuous decode loop is bound to, if a loop is running. *)
Record Reader : Type := mkReader {
  decoding : option string
}.

Record Session : Type := mkSession {
  (* useState *)
  isScanning : bool;
  cameras : list MediaDeviceInfo;
  selectedCamera : string;
  error : string;
  (* useRef *)
  readerRef : option Reader;
  streamRef : option Stream;
  (* browser *)
  videoSrc : option Stream;   (* srcObject of the #video-preview element *)
  live : list Stream;         (* streams whose tracks are still running *)
  nextStream : Stream;        (* the next stream the platform hands out *)
  timers : list Timer         (* pending timeouts, oldest first *)
}.

(** What the platform and the engine answer during one operation. *)
Record Platform : Type := mkPlatform {
  grantsCamera : bool;                          (* getUserMedia resolves *)
  videoInputs : option (list MediaDeviceInfo);  (* listVideoInputDevices; None: it rejects *)
  decodeThrows : bool                           (* decodeFromVideoDevice throws *)
}.

Inductive Event : Type :=
| SetIsScanning : bool -> Event
| SetCameras : list MediaDeviceInfo -> Event
| SetSelectedCamera : string -> Event
| SetError : string -> Event
| GetUserMedia : Event
| ListVideoInputDevices : Event
| TrackStop : Stream -> Event
| ReaderReset : Event
| DecodeFromVideoDevice : string -> Event
| SetTimeout : Timer -> Event
| ConsoleError : string -> Event
| ToastSuccess : string -> Event
| ToastError : string -> Event
| OnDetected : string -> Event.

(** The render a freshly re-rendered component hands to its callbacks. *)
Definition render_of (s : Session) : Render :=
  mkRender (isScanning s) (cameras s) (selectedCamera s).

(** The session right after the hook's mount effect: the reader exists,
    nothing else has happened. *)
Definition mounted : Session :=
  mkSession false [] "" "" (Some (mkReader None)) None None [] 0 [].

(** ** Field updates *)

Definition with_isScanning (b : bool) (s : Session) : Session :=
  mkSession b (cameras s) (selectedCamera s) (error s) (readerRef s)
    (streamRef s) (videoSrc s) (live s) (nextStream s) (timers s).

Definition with_cameras (l : list MediaDeviceInfo) (s : Session) : Session :=
  mkSession (isScanning s) l (selectedCamera s) (error s) (readerRef s)
    (streamRef s) (videoSrc s) (live s) (nextStream s) (timers s).

Definition with_selectedCamera (id : string) (s : Session) : Session :=
  mkSession (isScanning s) (cameras s) id (error s) (readerRef s)
    (streamRef s) (videoSrc s) (live s) (nextStream s) (timers s).

Definition with_error (m : string) (s : Session) : Session :=
  mkSession (isScanning s) (cameras s) (selectedCamera s) m (readerRef s)
    (streamRef s) (videoSrc s) (live s) (nextStream s) (timers s).

Definition with_readerRef (r : option Reader) (s : Session) : Session :=
  mkSession (isScanning s) (cameras s) (selectedCamera s) (error s) r
    (streamRef s) (videoSrc s) (live s) (nextStream s) (timers s).

Definition with_streamRef (h : option Stream) (s : Session) : Session :=
  mkSession (isScanning s) (cameras s) (selectedCamera s) (error s)
    (readerRef s) h (videoSrc s) (live s) (nextStream s) (timers s).

Definition with_videoSrc (v : option Stream) (s : Session) : Session :=
  mkSession (isScanning s) (cameras s) (selectedCamera s) (error s)
    (readerRef s) (streamRef s) v (live s) (nextStream s) (timers s).

Definition with_live (l : list Stream) (s : Session) : Session :=
  mkSession (isScanning s) (cameras s) (selectedCamera s) (error s)
    (readerRef s) (streamRef s) (videoSrc s) l (nextStream s) (timers s).

Definition with_nextStream (n : Stream) (s : Session) : Session :=
  mkSession (isScanning s) (cameras s) (selectedCamera s) (error s)
    (readerRef s) (streamRef s) (videoSrc s) (live s) n (timers s).

Definition with_timers (l : list Timer) (s : Session) : Session :=
  mkSession (isScanning s) (cameras s) (selectedCamera s) (error s)
    (readerRef s) (streamRef s) (videoSrc s) (live s) (nextStream s) l.

(** ** The monad of hook code: session state plus an effect log *)

Definition M (A : Type) : Type := Session -> A * Session * list Event.

Definition ret {A : Type} (a : A) : M A := fun s => (a, s, []).

Definition bind {A B : Type} (m : M A) (k : A -> M B) : M B :=
  fun s =>
    let '(a, s1, l1) := m s in
    let '(b, s2, l2) := k a s1 in
    (b, s2, l1 ++ l2).

Declare Scope hook_scope.
Delimit Scope hook_scope with hook.
Notation "x <- m ;; k" := (bind m (fun x => k))
  (at level 61, m at next level, right associativity) : hook_scope.
Notation "m ;; k" := (bind m (fun _ => k))
  (at level 61, right associativity) : hook_scope.
Open Scope hook_scope.

Definition get : M Session := fun s => (s, s, []).
Definition modify (f : Session -> Session) : M unit := fun s => (tt, f s, []).
Definition emit (e : Event) : M unit := fun s => (tt, s, [e]).

Definition skip : M unit := ret tt.

(** State after, and effects of, running [m] from [s]. *)
Definition exec {A : Type} (m : M A) (s : Session) : Session := snd (fst (m s)).
Definition trace {A : Type} (m : M A) (s : Session) : list Event := snd (m s).

(** ** Primitive effects *)

Definition setIsScanning (b : bool) : M unit :=
  emit (SetIsScanning b) ;; modify (with_isScanning b).

Definition setCameras (l : list MediaDeviceInfo) : M unit :=
  emit (SetCameras l) ;; modify (with_cameras l).

Definition setSelectedCamera (id : string) : M unit :=
  emit (SetSelectedCamera id) ;; modify (with_selectedCamera id).

Definition setError (m : string) : M unit :=
  emit (SetError m) ;; modify (with_error m).

Definition consoleError (m : string) : M unit := emit (ConsoleError m).

(** [stream.getTracks().forEach(track => track.stop())] *)
Definition stopTracks (h : Stream) : M unit :=
  emit (TrackStop h) ;;
  modify (fun s => with_live (List.remove Nat.eq_dec h (live s)) s).

(** The platform hands out a fresh running stream. *)
Definition acquireStream : M Stream :=
  fun s =>
    let n := nextStream s in
    (n, with_nextStream (S n) (with_live (live s ++ [n]) s), []).

(** [navigator.mediaDevices.getUserMedia({ video: true })]; [None] when the
    promise rejects. *)
Definition getUserMedia (p : Platform) : M (option Stream) :=
  emit GetUserMedia ;;
  if grantsCamera p then (n <- acquireStream ;; ret (Some n)) else ret None.

(** [readerRef.current.listVideoInputDevices()]; [None] when it rejects. *)
Definition listVideoInputDevices (p : Platform)
  : M (option (list MediaDeviceInfo)) :=
  emit ListVideoInputDevices ;; ret (videoInputs p).

(** [readerRef.current.reset()] as the hook sees it: the call is logged and
    the reader is idle afterwards.  The engine is the third-party
    [@zxing/library], of which the repository holds no source; what it does
    to the stream it holds is left out of this definition and added by
    [engineReset] below. *)
Definition readerReset : M unit :=
  emit ReaderReset ;;
  modify (fun s =>
    with_readerRef (option_map (fun _ => mkReader None) (readerRef s)) s).

(** Modelled from the spec: [decodeFromVideoDevice(id, 'video-preview', cb)]
    binds the engine to a capture stream of device [id], shows it in the
    preview element and starts the decode loop; the stream handle is not
    returned to the caller.  The call returns a promise and the stream is
    acquired asynchronously: the model takes a start that succeeds at its
    completion.  The result tells whether the call returned ([true]) or
    threw ([false]); a start that fails after the call has returned, which
    the hook never sees, is not among the answers of [Platform]. *)
Definition decodeFromVideoDevice (p : Platform) (id : string) : M bool :=
  emit (DecodeFromVideoDevice id) ;;
  if decodeThrows p then ret false
  else
    n <- acquireStream ;;
    modify (fun s =>
      with_videoSrc (Some n)
        (with_readerRef (option_map (fun _ => mkReader (Some id)) (readerRef s)) s)) ;;
    ret true.

Definition setTimeout (t : Timer) : M unit :=
  emit (SetTimeout t) ;;
  modify (fun s => with_timers (timers s ++ [t]) s).

(** ** The hook's functions *)

Definition msg_permission_denied : string :=
  "Camera permission denied. Please enable camera access in your browser settings.".
Definition msg_no_access : string :=
  "Could not access cameras. Please check your permissions.".
Definition msg_decode_failed : string := "Error initializing camera scanner.".

(** useScanner.tsx, lines 50-63. *)
Definition stopScanning : M unit :=
  s <- get ;;
  match streamRef s with
  | Some h => stopTracks h ;; modify (with_streamRef None)
  | None => skip
  end ;;
  s <- get ;;
  match readerRef s with
  | Some _ => readerReset
  | None => skip
  end ;;
  setIsScanning false.

(** The predicate handed to [devices.find], lines 89-93. *)
Definition back_keywords : list string := ["back"; "traseira"; "rear"].

Definition isBackCamera (device : MediaDeviceInfo) : bool :=
  Js.includes (Js.toLowerCase (label device)) "back"
  || Js.includes (Js.toLowerCase (label device)) "traseira"
  || Js.includes (Js.toLowerCase (label device)) "rear".

(** [backCamera?.deviceId || devices[0].deviceId], lines 89-95. *)
Definition cameraToUse (first : MediaDeviceInfo) (devices : list MediaDeviceInfo)
  : string :=
  let backCamera := List.find isBackCamera devices in
  Js.or_else (option_map deviceId backCamera) (deviceId first).

(** useScanner.tsx, lines 66-103. *)
Definition getCameras (r : Render) (p : Platform) : M unit :=
  setError "" ;;
  granted <- getUserMedia p ;;
  match granted with
  | None =>
      consoleError "Camera permission error:" ;;
      setError msg_permission_denied
  | Some stream =>
      stopTracks stream ;;
      s <- get ;;
      match readerRef s with
      | None => skip
      | Some _ =>
          listed <- listVideoInputDevices p ;;
          match listed with
          | None =>
              consoleError "Error accessing cameras:" ;;
              setError msg_no_access
          | Some devices =>
              setCameras devices ;;
              match devices with
              | first :: _ =>
                  if negb (Js.truthy (r_selectedCamera r))
                  then setSelectedCamera (cameraToUse first devices)
                  else skip
              | [] => skip
              end
          end
      end
  end.

(** useScanner.tsx, lines 106-176.  The value [decodeFromVideoDevice]
    returns is a promise, hence truthy: the timeout of lines 159-164 is set
    whenever the call returns.  The outer [catch] (lines 171-175) guards
    calls that do not throw in this model ([getCameras] catches its own
    failures, [stopScanning] and [reset] only stop things), so it has no
    branch here. *)
Definition startScanning (r : Render) (p : Platform) : M unit :=
  setError "" ;;
  s <- get ;;
  match readerRef s with
  | None => consoleError "Reader not initialized"
  | Some _ =>
      if negb (Js.truthy (r_selectedCamera r))
         && (List.length (r_cameras r) =? 0)%nat
      then getCameras r p
      else
        (if r_isScanning r then stopScanning else skip) ;;
        setIsScanning true ;;
        readerReset ;;
        started <- decodeFromVideoDevice p (r_selectedCamera r) ;;
        if started
        then setTimeout CaptureStream
        else
          consoleError "Error in decoding process:" ;;
          setError msg_decode_failed ;;
          setIsScanning false
  end.

(** useScanner.tsx, lines 179-193.  The timeout closes over [deviceId] and
    over the [startScanning] of the render that created [changeCamera]. *)
Definition changeCamera (r : Render) (deviceId : string) : M unit :=
  (if r_isScanning r then stopScanning else skip) ;;
  setSelectedCamera deviceId ;;
  setTimeout (RestartScan r deviceId).

(** What a timeout does when it fires. *)
Definition fireTimer (t : Timer) (p : Platform) : M unit :=
  match t with
  | CaptureStream =>
      s <- get ;;
      match videoSrc s with
      | Some v => modify (with_streamRef (Some v))
      | None => skip
      end
  | RestartScan r deviceId =>
      if Js.truthy deviceId then startScanning r p else skip
  end.

(** The oldest pending timeout fires. *)
Definition tick (p : Platform) : M unit :=
  s <- get ;;
  match timers s with
  | t :: rest => modify (with_timers rest) ;; fireTimer t p
  | [] => skip
  end.

(** ** The validator of the [BarcodeScanner] component *)

(** part_000, lines 22-33; [onDetected] is the consumer's callback. *)
Definition handleDetection (result : string) : M unit :=
  if isbnRegex_test result
  then
    emit (ToastSuccess (String.append "ISBN detected: " result)) ;;
    emit (OnDetected result) ;;
    stopScanning
  else emit (ToastError "Invalid ISBN format. Please try again.").

(** The callback given to the engine, useScanner.tsx lines 142-152: a frame
    with a result is handed to the hook's [onDetected], here
    [handleDetection]; a frame without one is ignored. *)
Definition onDecode (result : option string) : M unit :=
  match result with
  | Some text => handleDetection text
  | None => skip
  end.

(** ** Public operations, as the UI invokes them after a re-render *)

Inductive Op : Type :=
| EnumerateDevices : Platform -> Op
| SelectDevice : string -> Op
| StartScanning : Platform -> Op
| StopScanning : Op.

Definition perform (o : Op) : M unit :=
  fun s =>
    match o with
    | EnumerateDevices p => getCameras (render_of s) p s
    | SelectDevice id => changeCamera (render_of s) id s
    | StartScanning p => startScanning (render_of s) p s
    | StopScanning => stopScanning s
    end.

Definition perform_all (ops : list Op) (s : Session) : Session :=
  fold_left (fun st o => exec (perform o) st) ops s.

(** States the public operations can reach from the mounted session. *)
Definition reachable (s : Session) : Prop :=
  exists ops, s = perform_all ops mounted.

(** ** Observations on effect logs *)

(** The texts handed to the consumer's [onDetected], in order. *)
Fixpoint forwarded (l : list Event) : list string :=
  match l with
  | [] => []
  | OnDetected text :: rest => text :: forwarded rest
  | _ :: rest => forwarded rest
  end.

(** The streams whose tracks the Manager stopped, in order. *)
Fixpoint released (l : list Event) : list Stream :=
  match l with
  | [] => []
  | TrackStop h :: rest => h :: released rest
  | _ :: rest => released rest
  end.

(** The devices a decode loop was started on, in order. *)
Fixpoint decode_starts (l : list Event) : list string :=
  match l with
  | [] => []
  | DecodeFromVideoDevice id :: rest => id :: decode_starts rest
  | _ :: rest => decode_starts rest
  end.

(** Whether the permission prompt of a device enumeration was raised. *)
Fixpoint enumeration_requested (l : list Event) : bool :=
  match l with
  | [] => false
  | GetUserMedia :: _ => true
  | _ :: rest => enumeration_requested rest
  end.

Definition ids (l : list MediaDeviceInfo) : list string := map deviceId l.

(** ** Sample sessions *)

Definition front_and_back : list MediaDeviceInfo :=
  [mkDevice "a" "Front"; mkDevice "b" "Back Camera"].

Definition front_and_usb : list MediaDeviceInfo :=
  [mkDevice "a" "Front"; mkDevice "c" "USB Cam"].

Definition platform_with (l : list MediaDeviceInfo) : Platform :=
  mkPlatform true (Some l) false.

Definition platform_denying : Platform := mkPlatform false None false.

(** Devices enumerated, back camera auto-selected, not scanning. *)
Definition session_ready : Session :=
  exec (perform (EnumerateDevices (platform_with front_and_back))) mounted.

(** Scanning has started; the 500 ms lookup of the stream has not run yet. *)
Definition session_just_started : Session :=
  exec (perform (StartScanning (platform_with front_and_back))) session_ready.

(** Scanning, with the stream handle captured by the delayed lookup. *)
Definition session_scanning : Session :=
  exec (tick (platform_with front_and_back)) session_just_started.

(** A session whose reader has not been created. *)
Definition session_without_reader : Session := with_readerRef None mounted.

(** ** Validity of the selection *)

(** The selected id, when there is one, is the id of a listed device. *)
Definition selection_valid (s : Session) : Prop :=
  selectedCamera s <> "" -> In (selectedCamera s) (ids (cameras s)).

(** Uses of the operations under which the code keeps the selection valid:
    [selectDevice] is given the id of a listed device (or the empty id), and
    a refresh made while a device is selected still lists that device. *)
Definition admissible (s : Session) (o : Op) : Prop :=
  match o with
  | SelectDevice x => x = "" \/ In x (ids (cameras s))
  | EnumerateDevices p =>
      forall l, grantsCamera p = true -> videoInputs p = Some l ->
                selectedCamera s <> "" -> In (selectedCamera s) (ids l)
  | StartScanning _ => True
  | StopScanning => True
  end.

Fixpoint admissible_all (ops : list Op) (s : Session) : Prop :=
  match ops with
  | [] => True
  | o :: rest => admissible s o /\ admissible_all rest (exec (perform o) s)
  end.

(** ** Intermediate states and steps of the hook functions *)

(** The session once the throwaway stream of the permission request has been
    taken and released. *)
Definition after_permission (s : Session) : Session :=
  with_nextStream (S (nextStream s))
    (with_live (List.remove Nat.eq_dec (nextStream s) (live s ++ [nextStream s]))
       (with_error "" s)).

(** The id [getCameras] leaves selected after listing [devices]. *)
Definition selection_after (r : Render) (devices : list MediaDeviceInfo)
    (current : string) : string :=
  match devices with
  | first :: _ =>
      if negb (Js.truthy (r_selectedCamera r))
      then cameraToUse first devices else current
  | [] => current
  end.

(** Whether [startScanning] hands over to [getCameras] (lines 116-122). *)
Definition must_enumerate (r : Render) : bool :=
  negb (Js.truthy (r_selectedCamera r)) && (List.length (r_cameras r) =? 0)%nat.

(** The decode attempt that ends [startScanning] on its scanning path. *)
Definition attempt_decode (r : Render) (p : Platform) : M unit :=
  setIsScanning true ;;
  readerReset ;;
  started <- decodeFromVideoDevice p (r_selectedCamera r) ;;
  if started
  then setTimeout CaptureStream
  else
    consoleError "Error in decoding process:" ;;
    setError msg_decode_failed ;;
    setIsScanning false.

(** ** Everything that can happen to a session *)

(** Besides the public operations, a pending timeout may fire and the engine
    may report a frame. *)
Inductive Happening : Type :=
| Public : Op -> Happening
| TimerFires : Platform -> Happening
| Decoded : option string -> Happening.

Definition happen (h : Happening) : M unit :=
  match h with
  | Public o => perform o
  | TimerFires p => tick p
  | Decoded result => onDecode result
  end.

Definition happen_all (hs : list Happening) (s : Session) : Session :=
  fold_left (fun st h => exec (happen h) st) hs s.

(** Everything the hook did, in order, while [hs] happened from [s]. *)
Fixpoint history (hs : list Happening) (s : Session) : list Event :=
  match hs with
  | [] => []
  | h :: rest => trace (happen h) s ++ history rest (exec (happen h) s)
  end.

(** The last call to the engine in a log ([reset()] or
    [decodeFromVideoDevice]); [before] when the log holds none. *)
Fixpoint last_engine_call (l : list Event) (before : option Event)
  : option Event :=
  match l with
  | [] => before
  | ReaderReset :: rest => last_engine_call rest (Some ReaderReset)
  | DecodeFromVideoDevice id :: rest =>
      last_engine_call rest (Some (DecodeFromVideoDevice id))
  | _ :: rest => last_engine_call rest before
  end.

(** The device the reader is bound to, if it exists and is bound. *)
Definition engine_bound (s : Session) : option string :=
  match readerRef s with
  | Some rd => decoding rd
  | None => None
  end.

(** The reader is bound only by the last engine call of the log, and
    [isScanning] is true only while the reader is bound. *)
Definition engine_in_step (s : Session) (last : option Event) : Prop :=
  (forall id, engine_bound s = Some id ->
              last = Some (DecodeFromVideoDevice id))
  /\ (isScanning s = true -> exists id, engine_bound s = Some id).

(** ** The [BarcodeScanner] component around the hook *)

(** The body of the visibility effect, part_000 lines 40-50. *)
Definition visibilityEffect (isVisible : bool) (r : Render) (p : Platform)
  : M unit :=
  if isVisible
  then
    if (0 <? List.length (r_cameras r))%nat
    then startScanning r p
    else getCameras r p
  else stopScanning.

(** A re-render whose effect dependencies changed: the cleanup of the
    previous effect (part_000 lines 51-53) runs, then the effect of the new
    render. *)
Definition effectRound (isVisible : bool) (p : Platform) : M unit :=
  fun s => (stopScanning ;; visibilityEffect isVisible (render_of s) p) s.

(** The name shown for a camera in the selector, part_000 line 145:
    [camera.label || `Camera ${camera.deviceId.substring(0, 4)}`]. *)
Definition cameraDisplayName (camera : MediaDeviceInfo) : string :=
  if Js.truthy (label camera) then label camera
  else String.append "Camera " (String.substring 0 4 (deviceId camera)).

(** ** The hook over the engine's own release of its stream

    [readerReset] above records the call and the reader going idle.  The
    engine also owns a stream: the one a running decode loop attached to the
    preview element.  Its [reset()] stops that stream and clears the
    preview; an engine that is not bound holds nothing. *)
Definition engineReset : M unit :=
  emit ReaderReset ;;
  modify (fun s =>
    match readerRef s with
    | Some (mkReader (Some _)) =>
        with_readerRef (Some (mkReader None))
          (match videoSrc s with
           | Some v =>
               with_videoSrc None
                 (with_live (List.remove Nat.eq_dec v (live s)) s)
           | None => s
           end)
    | Some (mkReader None) => s
    | None => s
    end).

Section OverReset.

(** What [readerRef.current.reset()] does. *)
Variable reset : M unit.

(** useScanner.tsx, lines 50-63. *)
Definition stopScanningWith : M unit :=
  s <- get ;;
  match streamRef s with
  | Some h => stopTracks h ;; modify (with_streamRef None)
  | None => skip
  end ;;
  s <- get ;;
  match readerRef s with
  | Some _ => reset
  | None => skip
  end ;;
  setIsScanning false.

(** useScanner.tsx, lines 124-134: from the "already scanning" test up to
    the reset that precedes the decode start. *)
Definition before_decode (r : Render) : M unit :=
  setError "" ;;
  (if r_isScanning r then stopScanningWith else skip) ;;
  setIsScanning true ;;
  reset.

(** useScanner.tsx, lines 106-176. *)
Definition startScanningWith (r : Render) (p : Platform) : M unit :=
  setError "" ;;
  s <- get ;;
  match readerRef s with
  | None => consoleError "Reader not initialized"
  | Some _ =>
      if negb (Js.truthy (r_selectedCamera r))
         && (List.length (r_cameras r) =? 0)%nat
      then getCameras r p
      else
        (if r_isScanning r then stopScanningWith else skip) ;;
        setIsScanning true ;;
        reset ;;
        started <- decodeFromVideoDevice p (r_selectedCamera r) ;;
        if started
        then setTimeout CaptureStream
        else
          consoleError "Error in decoding process:" ;;
          setError msg_decode_failed ;;
          setIsScanning false
  end.

End OverReset.

(** A scan is active on stream [v]: [isScanning] is true, the engine is
    bound, and [v] is the stream shown in the preview and the only one
    running. *)
Definition scan_active (s : Session) (v : Stream) : Prop :=
  isScanning s = true
  /\ (exists id, readerRef s = Some (mkReader (Some id)))
  /\ videoSrc s = Some v
  /\ live s = [v].

(** Ready to scan and idle: the engine exists and is not bound, nothing
    runs, no handle is held. *)
Definition idle_ready (s : Session) : Prop :=
  isScanning s = false
  /\ readerRef s = Some (mkReader None)
  /\ videoSrc s = None
  /\ live s = []
  /\ streamRef s = None.

(** A scan started with devices known but none selected, after which a
    refresh found no device: scanning, nothing selected, no device known.
    (The two timeouts are the restart that [changeCamera] scheduled, which
    does nothing for the empty id, and the capture of the stream.) *)
Definition session_scanning_without_devices : Session :=
  happen_all
    [Public (EnumerateDevices (platform_with front_and_back));
     Public (SelectDevice "");
     Public (StartScanning (platform_with front_and_back));
     TimerFires (platform_with front_and_back);
     TimerFires (platform_with front_and_back);
     Public (EnumerateDevices (platform_with []))]
    mounted.

(** ** States on the scanning path of [startScanning] *)

(** The running streams once a held handle, if any, has been released. *)
Definition live_after_stop (s : Session) : list Stream :=
  match streamRef s with
  | Some h => List.remove Nat.eq_dec h (live s)
  | None => live s
  end.

(** The session [startScanning] leaves when the decode loop has started. *)
Definition scan_started (r : Render) (s : Session) : Session :=
  mkSession true (cameras s) (selectedCamera s) ""
    (Some (mkReader (Some (r_selectedCamera r))))
    (if r_isScanning r then None else streamRef s)
    (Some (nextStream s))
    ((if r_isScanning r then live_after_stop s else live s) ++ [nextStream s])
    (S (nextStream s))
    (timers s ++ [CaptureStream]).

(** The session [startScanning] leaves when starting the decode loop threw. *)
Definition scan_failed (r : Render) (s : Session) : Session :=
  mkSession false (cameras s) (selectedCamera s) msg_decode_failed
    (Some (mkReader None))
    (if r_isScanning r then None else streamRef s)
    (videoSrc s)
    (if r_isScanning r then live_after_stop s else live s)
    (nextStream s)
    (timers s).

(** ** The page that consumes the scanner: [pages/AddBook.tsx]

    The page's React state and the catalog array it mutates ([mockBooks],
    a module-level array) form one record, [Page].  Handlers read the values
    their closure captured (passed as arguments) and write through setters.
    The numbers the page holds are integers ([Z]), with [NaN] kept apart;
    the one sum the page computes is taken only where JavaScript computes
    it exactly ([jsAdd]).  Each handler is run to completion through its
    [await]s. *)

Module AddBook.

Inductive JsNumber : Type :=
| NaN : JsNumber
| Int : Z -> JsNumber.

(** [!!n] on a number: [NaN] and [0] are falsy. *)
Definition number_truthy (n : JsNumber) : bool :=
  match n with
  | NaN => false
  | Int z => negb (z =? 0)%Z
  end.

(** [n.toString()] on an integer. *)
Definition numberToString (z : Z) : string :=
  NilZero.string_of_int (Z.to_int z).

(** [(n).toString()] on an array length. *)
Definition natToString (n : nat) : string :=
  NilEmpty.string_of_uint (Nat.to_uint n).

(** The white space and line terminators [trim] removes, among the
    characters a [string] holds: TAB, LF, VT, FF, CR, SP, NBSP. *)
Definition isWhitespace (c : ascii) : bool :=
  let n := nat_of_ascii c in
  ((9 <=? n) && (n <=? 13) || (n =? 32) || (n =? 160))%nat.

Fixpoint trimStart (s : string) : string :=
  match s with
  | EmptyString => EmptyString
  | String c t => if isWhitespace c then trimStart t else s
  end.

Fixpoint trimEnd (s : string) : string :=
  match s with
  | EmptyString => EmptyString
  | String c t =>
      match trimEnd t with
      | EmptyString => if isWhitespace c then EmptyString else String c EmptyString
      | t' => String c t'
      end
  end.

(** [s.trim()] *)
Definition trim (s : string) : string := trimEnd (trimStart s).

(** The double quote character, as a one-character text. *)
Definition quote : string := String (ascii_of_nat 34) EmptyString.

(** [`Book "${title}" ${what} successfully`] *)
Definition bookMessage (title what : string) : string :=
  String.append "Book "
    (String.append quote
       (String.append title
          (String.append quote
             (String.append " " (String.append what " successfully"))))).

(** [a || b] on strings, [a] possibly [undefined]. *)
Definition orEmpty (a : option string) : string := Js.or_else a "".

(** [interface BookFormData], lines 26-35. *)
Record BookFormData : Type := mkForm {
  f_title : string;
  f_author : string;
  f_isbn : string;
  f_publisher : string;
  f_publishedYear : string;
  f_description : string;
  f_cover : string;
  f_quantity : Z
}.

(** Modelled from its uses in this page: the declaration of [Book]
    ([@/types]) is not among the sources.  The fields the page reads with a
    fallback ([book.publisher || '']) may be absent; [b_others] stands for
    whatever further fields a book carries. *)
Record Book : Type := mkBook {
  b_id : string;
  b_title : string;
  b_author : string;
  b_isbn : string;
  b_publisher : option string;
  b_publishedYear : option JsNumber;
  b_description : option string;
  b_cover : option string;
  b_quantity : Z;
  b_availableQuantity : Z;
  b_createdAt : string;
  b_updatedAt : string;
  b_others : list (string * string)
}.

(** What [parseOpenLibraryBook] hands back, as far as the page reads it. *)
Record ParsedBook : Type := mkParsed {
  p_title : option string;
  p_author : option string;
  p_isbn : option string;
  p_publisher : option string;
  p_publishedYear : option JsNumber;
  p_description : option string;
  p_cover : option string
}.

(** The answer of [searchByISBN] followed by [parseOpenLibraryBook]. *)
Inductive Lookup : Type :=
| Found : ParsedBook -> Lookup
| NotFound : Lookup          (* searchByISBN resolves with a falsy value *)
| LookupFailed : Lookup.     (* searchByISBN rejects *)

Record Page : Type := mkPage {
  formData : BookFormData;
  loading : bool;
  submitting : bool;
  isbnLoading : bool;
  showScanner : bool;
  mockBooks : list Book
}.

Inductive PageEvent : Type :=
| ToastOk : string -> PageEvent
| ToastErr : string -> PageEvent
| Navigate : string -> PageEvent            (* navigate(path) *)
| NavigateLater : string -> PageEvent       (* setTimeout(() => navigate(path), 1000) *)
| SearchByISBN : string -> PageEvent
| LogError : string -> PageEvent.

Definition with_formData (f : BookFormData) (pg : Page) : Page :=
  mkPage f (loading pg) (submitting pg) (isbnLoading pg) (showScanner pg)
    (mockBooks pg).

Definition with_loading (b : bool) (pg : Page) : Page :=
  mkPage (formData pg) b (submitting pg) (isbnLoading pg) (showScanner pg)
    (mockBooks pg).

Definition with_submitting (b : bool) (pg : Page) : Page :=
  mkPage (formData pg) (loading pg) b (isbnLoading pg) (showScanner pg)
    (mockBooks pg).

Definition with_isbnLoading (b : bool) (pg : Page) : Page :=
  mkPage (formData pg) (loading pg) (submitting pg) b (showScanner pg)
    (mockBooks pg).

Definition with_showScanner (b : bool) (pg : Page) : Page :=
  mkPage (formData pg) (loading pg) (submitting pg) (isbnLoading pg) b
    (mockBooks pg).

Definition with_mockBooks (l : list Book) (pg : Page) : Page :=
  mkPage (formData pg) (loading pg) (submitting pg) (isbnLoading pg)
    (showScanner pg) l.

Definition with_isbn (isbn : string) (f : BookFormData) : BookFormData :=
  mkForm (f_title f) (f_author f) isbn (f_publisher f) (f_publishedYear f)
    (f_description f) (f_cover f) (f_quantity f).

Definition with_quantity (q : Z) (f : BookFormData) : BookFormData :=
  mkForm (f_title f) (f_author f) (f_isbn f) (f_publisher f)
    (f_publishedYear f) (f_description f) (f_cover f) q.

(** The initial form, lines 44-53. *)
Definition emptyForm : BookFormData := mkForm "" "" "" "" "" "" "" 1.

(** A handler's result: the page it leaves and what it did, in order. *)
Definition Run : Type := Page * list PageEvent.

(** [Number.isSafeInteger]: the integers a JavaScript number holds
    exactly. *)
Definition safeInteger (z : Z) : bool :=
  (- (2 ^ 53 - 1) <=? z)%Z && (z <=? 2 ^ 53 - 1)%Z.

(** [a + b] on integers, where the sum of JavaScript numbers is the exact
    one: both operands and the result are safe integers.  [None] elsewhere,
    where the sum rounds and this model does not follow it. *)
Definition jsAdd (a b : Z) : option Z :=
  if safeInteger a && safeInteger b && safeInteger (a + b)
  then Some (a + b)%Z else None.

(** Lines 101-106: [quantity: Math.max(1, prev.quantity + amount)]. *)
Definition handleQuantityChange (amount : Z) (pg : Page) : option Run :=
  match jsAdd (f_quantity (formData pg)) amount with
  | Some sum =>
      Some (with_formData (with_quantity (Z.max 1 sum) (formData pg)) pg, [])
  | None => None
  end.

(** Line 378: [quantity: parseInt(e.target.value) || 1], given what
    [parseInt] made of the input's value. *)
Definition handleQuantityInput (parsed : JsNumber) (pg : Page) : Run :=
  let q := match parsed with
           | Int z => if number_truthy parsed then z else 1%Z
           | NaN => 1%Z
           end in
  (with_formData (with_quantity q (formData pg)) pg, []).

(** Lines 120-131: the form a found book fills; [quantity] is the one the
    handler's closure captured. *)
Definition formOfParsed (parsed : ParsedBook) (isbn : string) (quantity : Z)
  : BookFormData :=
  mkForm (orEmpty (p_title parsed)) (orEmpty (p_author parsed))
    (Js.or_else (p_isbn parsed) isbn)
    (orEmpty (p_publisher parsed))
    (match p_publishedYear parsed with
     | Some (Int z) =>
         if number_truthy (Int z) then numberToString z else ""
     | _ => ""
     end)
    (orEmpty (p_description parsed)) (orEmpty (p_cover parsed))
    quantity.

(** Lines 109-143.  [quantity] is [formData.quantity] as the closure has it;
    [answer] is what the lookup service answers. *)
Definition handleIsbnSearch (quantity : Z) (answer : Lookup) (isbn : string)
    (pg : Page) : Run :=
  if negb (Js.truthy (trim isbn))
  then (pg, [ToastErr "Please enter an ISBN to search"])
  else
    let pg1 := with_isbnLoading true pg in
    match answer with
    | Found parsed =>
        (with_isbnLoading false
           (with_formData (formOfParsed parsed isbn quantity) pg1),
         [SearchByISBN isbn; ToastOk "Book information found!"])
    | NotFound =>
        (with_isbnLoading false pg1,
         [SearchByISBN isbn; ToastErr "No book found with this ISBN"])
    | LookupFailed =>
        (with_isbnLoading false pg1,
         [SearchByISBN isbn; LogError "Error searching ISBN:";
          ToastErr "Error searching for book"])
    end.

(** Lines 146-150: the [onDetected] the page gives to the scanner. *)
Definition handleScannerDetection (quantity : Z) (answer : Lookup)
    (detectedIsbn : string) (pg : Page) : Run :=
  let pg1 := with_formData (with_isbn detectedIsbn (formData pg)) pg in
  let pg2 := with_showScanner false pg1 in
  handleIsbnSearch quantity answer detectedIsbn pg2.

(** [!!id], line 42. *)
Definition isEditMode (id : option string) : bool :=
  match id with
  | Some i => Js.truthy i
  | None => false
  end.

(** [b.id === id] with [id] possibly [undefined]. *)
Definition hasId (id : option string) (b : Book) : bool :=
  match id with
  | Some i => String.eqb (b_id b) i
  | None => false
  end.

(** [formData.publishedYear ? parseInt(formData.publishedYear) : undefined] *)
Definition yearOfForm (parseInt : string -> JsNumber) (f : BookFormData)
  : option JsNumber :=
  if Js.truthy (f_publishedYear f) then Some (parseInt (f_publishedYear f))
  else None.

(** Lines 170-183; [created] and [updated] are the two readings of
    [new Date().toISOString()], in the order the code takes them. *)
Definition newBook (parseInt : string -> JsNumber) (f : BookFormData)
    (created updated : string) (books : list Book) : Book :=
  mkBook (natToString (List.length books + 1)) (f_title f) (f_author f)
    (f_isbn f) (Some (f_publisher f)) (yearOfForm parseInt f)
    (Some (f_description f)) (Some (f_cover f)) (f_quantity f) (f_quantity f)
    created updated [].

(** Lines 195-206: the book an edit writes over [old]. *)
Definition editedBook (parseInt : string -> JsNumber) (f : BookFormData)
    (now : string) (old : Book) : Book :=
  mkBook (b_id old) (f_title f) (f_author f) (f_isbn f)
    (Some (f_publisher f)) (yearOfForm parseInt f) (Some (f_description f))
    (Some (f_cover f)) (f_quantity f) (b_availableQuantity old)
    (b_createdAt old) now (b_others old).

(** [mockBooks.findIndex(b => b.id === id)] followed by the assignment to
    [mockBooks[bookIndex]]: the first book with that id is replaced. *)
Fixpoint replaceFirst (test : Book -> bool) (f : Book -> Book)
    (books : list Book) : option (list Book) :=
  match books with
  | [] => None
  | b :: rest =>
      if test b then Some (f b :: rest)
      else option_map (cons b) (replaceFirst test f rest)
  end.

(** Lines 153-222.  [f], [id] are [formData] and the route's [id] as the
    closure has them; [first] and [second] are the successive readings of
    [new Date().toISOString()]: adding a book reads the clock twice, editing
    one reads it once. *)
Definition handleSubmitAt (parseInt : string -> JsNumber) (f : BookFormData)
    (id : option string) (first second : string) (pg : Page) : Run :=
  if negb (Js.truthy (f_title f)) || negb (Js.truthy (f_author f))
     || negb (Js.truthy (f_isbn f))
  then (pg, [ToastErr "Please fill in all required fields"])
  else
    let pg1 := with_submitting true pg in
    if negb (isEditMode id)
    then
      (with_submitting false
         (with_mockBooks
            (mockBooks pg1 ++ [newBook parseInt f first second (mockBooks pg1)])
            pg1),
       [ToastOk (bookMessage (f_title f) "added"); NavigateLater "/catalog"])
    else
      match replaceFirst (hasId id) (editedBook parseInt f first) (mockBooks pg1) with
      | Some books =>
          (with_submitting false (with_mockBooks books pg1),
           [ToastOk (bookMessage (f_title f) "updated");
            NavigateLater "/catalog"])
      | None => (with_submitting false pg1, [NavigateLater "/catalog"])
      end.

(** The submit in which every reading of the clock gives [now]. *)
Definition handleSubmit (parseInt : string -> JsNumber) (f : BookFormData)
    (id : option string) (now : string) (pg : Page) : Run :=
  handleSubmitAt parseInt f id now now pg.

(** Lines 63-88: loading the book to edit. *)
Definition formOfBook (book : Book) : BookFormData :=
  mkForm (b_title book) (b_author book) (b_isbn book)
    (orEmpty (b_publisher book))
    (match b_publishedYear book with
     | Some (Int z) =>
         if number_truthy (Int z) then numberToString z else ""
     | _ => ""
     end)
    (orEmpty (b_description book)) (orEmpty (b_cover book))
    (b_quantity book).

Definition fetchBook (id : option string) (pg : Page) : Run :=
  let pg1 := with_loading true pg in
  match List.find (hasId id) (mockBooks pg1) with
  | Some book => (with_loading false (with_formData (formOfBook book) pg1), [])
  | None =>
      (with_loading false pg1, [ToastErr "Book not found"; Navigate "/catalog"])
  end.

End AddBook.

(** The catalog numbers its books 1, 2, ... in order. *)
Definition sequential_ids (books : list AddBook.Book) : Prop :=
  map AddBook.b_id books
  = map AddBook.natToString (seq 1 (List.length books)).

(** Every character of [s] is white space. *)
Definition blank (s : string) : Prop :=
  Forall (fun c => AddBook.isWhitespace c = true) (list_ascii_of_string s).

(** A sample catalog and a sample form. *)
Definition sample_book (id title : string) : AddBook.Book :=
  AddBook.mkBook id title "Author" "9780345391803" None None None None 2 1
    "2024-01-01" "2024-01-01" [("category", "Fiction")].

Definition sample_catalog : list AddBook.Book :=
  [sample_book "1" "Dune"; sample_book "2" "Emma"].

Definition sample_form : AddBook.BookFormData :=
  AddBook.mkForm "Ulysses" "James Joyce" "9780199535675" "" "" "" "" 3.

Definition sample_page : AddBook.Page :=
  AddBook.mkPage AddBook.emptyForm false false false true sample_catalog.

(** A [parseInt] for the samples: every text is read as [NaN]. *)
Definition parse_nothing (_ : string) : AddBook.JsNumber := AddBook.NaN.

(** * Properties *)

(** ** String and regular-expression facts *)

Section RegexFacts.

Import Regex.

Lemma iter_flat_map_nil (n : nat) (a : Regex.t) :
  iter n (flat_map (run a)) [] = [].
Proof. induction n as [|n IH]; simpl; auto. Qed.

Lemma run_rep_zero (a : Regex.t) (s : string) : run (Rep 0 a) s = [s].
Proof. reflexivity. Qed.

Lemma run_rep_digit_nil (n : nat) : run (Rep (S n) Digit) "" = [].
Proof. exact (iter_flat_map_nil n Digit). Qed.

Lemma run_rep_digit_cons (n : nat) (c : ascii) (rest : string) :
  run (Rep (S n) Digit) (String c rest) =
  if Js.isDigit c then run (Rep n Digit) rest else [].
Proof.
  change (run (Rep (S n) Digit) (String c rest))
    with (iter n (flat_map (run Digit))
            ((if Js.isDigit c then [rest] else []) ++ [])).
  destruct (Js.isDigit c).
  - reflexivity.
  - exact (iter_flat_map_nil n Digit).
Qed.

(** [\d{n}] followed by the end of input: exactly [n] digits. *)
Lemma rep_digit_consumes_all (n : nat) (s : string) :
  existsb (fun rest => String.eqb rest "") (run (Rep n Digit) s) = true
  <-> String.length s = n /\ all_digits s.
Proof.
  revert s; induction n as [|n IH]; intros s.
  - rewrite run_rep_zero; simpl. rewrite orb_false_r.
    destruct s as [|c rest]; simpl.
    + split; [intros _; split; [reflexivity | constructor] | reflexivity].
    + split; [discriminate | intros [H _]; discriminate].
  - destruct s as [|c rest].
    + rewrite run_rep_digit_nil; simpl.
      split; [discriminate | intros [H _]; discriminate].
    + rewrite run_rep_digit_cons.
      destruct (Js.isDigit c) eqn:Hc.
      * rewrite IH. unfold all_digits; simpl.
        split.
        -- intros [Hl Hd]. split; [congruence | constructor; assumption].
        -- intros [Hl Hd]. inversion Hd; subst. split; [congruence | assumption].
      * simpl. split; [discriminate |].
        intros [_ Hd]. unfold all_digits in Hd; simpl in Hd.
        inversion Hd; subst. congruence.
Qed.

End RegexFacts.


(** ** Validation of decoded texts *)

Lemma isbnRegex_test_spec (s : string) :
  isbnRegex_test s = true <-> ten_or_thirteen_digits s.
Proof.
  unfold isbnRegex_test, Regex.test_anchored, isbnRegex, ten_or_thirteen_digits.
  change (Regex.run (Regex.Alt (Regex.Rep 10 Regex.Digit) (Regex.Rep 13 Regex.Digit)) s)
    with (Regex.run (Regex.Rep 10 Regex.Digit) s ++ Regex.run (Regex.Rep 13 Regex.Digit) s).
  rewrite existsb_app, orb_true_iff, !rep_digit_consumes_all.
  tauto.
Qed.

Lemma stopScanning_forwards_nothing (s : Session) :
  forwarded (trace stopScanning s) = [].
Proof.
  unfold trace, stopScanning.
  destruct s as [sc cs sel err [rd|] [h|] v lv nx tm]; reflexivity.
Qed.

Lemma handleDetection_accepted (text : string) (st : Session) :
  isbnRegex_test text = true ->
  forwarded (trace (handleDetection text) st) = [text].
Proof.
  intros Hacc. unfold handleDetection. rewrite Hacc.
  pose proof (stopScanning_forwards_nothing st) as Hstop.
  unfold trace in *. unfold bind, emit in *; simpl in *.
  destruct (stopScanning st) as [[u s'] l]; simpl in *.
  now rewrite Hstop.
Qed.

Lemma handleDetection_rejected (text : string) (st : Session) :
  isbnRegex_test text = false ->
  forwarded (trace (handleDetection text) st) = []
  /\ exec (handleDetection text) st = st.
Proof.
  intros Hrej. unfold handleDetection. rewrite Hrej. split; reflexivity.
Qed.

(** C1. The validator accepts a decoded text exactly when it is made of 10 or
    of 13 decimal digits.  An accepted decode is handed to the consumer's
    [onDetected] (once); a rejected decode is not handed over and leaves the
    session as it was, hence still scanning. *)
Theorem decode_accepted_iff_isbn_digits (text : string) (st : Session) :
  (isbnRegex_test text = true <-> ten_or_thirteen_digits text)
  /\ (ten_or_thirteen_digits text ->
      forwarded (trace (onDecode (Some text)) st) = [text])
  /\ (~ ten_or_thirteen_digits text ->
      forwarded (trace (onDecode (Some text)) st) = []
      /\ exec (onDecode (Some text)) st = st).
Proof.
  split; [apply isbnRegex_test_spec|]. split.
  - intros H. apply isbnRegex_test_spec in H.
    now apply handleDetection_accepted.
  - intros H. apply handleDetection_rejected.
    destruct (isbnRegex_test text) eqn:E; [|reflexivity].
    exfalso. apply H. now apply isbnRegex_test_spec.
Qed.

Lemma decode_accepted_iff_isbn_digits_witness :
  forwarded (trace (onDecode (Some "9780345391803")) session_scanning)
    = ["9780345391803"]
  /\ (forwarded (trace (onDecode (Some "ABC123")) session_scanning) = []
      /\ exec (onDecode (Some "ABC123")) session_scanning = session_scanning)
  /\ isScanning session_scanning = true.
Proof.
  split; [|split].
  - apply (decode_accepted_iff_isbn_digits "9780345391803" session_scanning).
    split; [right; reflexivity | repeat constructor].
  - apply (decode_accepted_iff_isbn_digits "ABC123" session_scanning).
    intros [[H|H] _]; discriminate H.
  - reflexivity.
Defined.

(** ** Stopping *)

Lemma remove_not_In (h : Stream) (l : list Stream) :
  ~ In h (List.remove Nat.eq_dec h l).
Proof. apply remove_In. Qed.

(** The state [stopScanning] leaves, field by field. *)
Lemma stopScanning_exec (s : Session) :
  exec stopScanning s =
  mkSession false (cameras s) (selectedCamera s) (error s)
    (option_map (fun _ => mkReader None) (readerRef s))
    None (videoSrc s)
    (match streamRef s with
     | Some h => List.remove Nat.eq_dec h (live s)
     | None => live s
     end)
    (nextStream s) (timers s).
Proof.
  destruct s as [sc cs sel err [rd|] [h|] v lv nx tm]; reflexivity.
Qed.

Lemma stopScanning_trace (s : Session) :
  trace stopScanning s =
  (match streamRef s with Some h => [TrackStop h] | None => [] end
   ++ match readerRef s with Some _ => [ReaderReset] | None => [] end
   ++ [SetIsScanning false]).
Proof.
  destruct s as [sc cs sel err [rd|] [h|] v lv nx tm]; reflexivity.
Qed.

(** C5. [stopScanning] is idempotent; it can be called when nothing is being
    scanned, where it changes nothing on an idle session; afterwards the
    stream handle is released (forgotten, its tracks stopped), the decoding
    engine is reset and the session is not scanning. *)
Theorem stopScanning_idempotent (s : Session) :
  exec stopScanning (exec stopScanning s) = exec stopScanning s
  /\ (isScanning s = false -> streamRef s = None ->
      (forall rd, readerRef s = Some rd -> decoding rd = None) ->
      exec stopScanning s = s)
  /\ streamRef (exec stopScanning s) = None
  /\ (forall h, streamRef s = Some h ->
      In (TrackStop h) (trace stopScanning s)
      /\ ~ In h (live (exec stopScanning s)))
  /\ (forall rd, readerRef s = Some rd ->
      In ReaderReset (trace stopScanning s)
      /\ readerRef (exec stopScanning s) = Some (mkReader None))
  /\ isScanning (exec stopScanning s) = false.
Proof.
  repeat split.
  - rewrite !stopScanning_exec; simpl.
    destruct (readerRef s); reflexivity.
  - intros Hsc Hst Hrd. rewrite stopScanning_exec, Hst.
    destruct s as [sc cs sel err rd h v lv nx tm]; simpl in *; subst.
    destruct rd as [[d]|]; simpl; [|reflexivity].
    specialize (Hrd _ eq_refl); simpl in Hrd; subst d. reflexivity.
  - now rewrite stopScanning_exec.
  - rewrite stopScanning_trace, H. simpl; auto.
  - rewrite stopScanning_exec, H; simpl. apply remove_not_In.
  - rewrite stopScanning_trace, H. apply in_or_app; right. simpl; auto.
  - rewrite stopScanning_exec, H. reflexivity.
  - now rewrite stopScanning_exec.
Qed.

Lemma stopScanning_idempotent_witness :
  exec stopScanning mounted = mounted
  /\ ~ In 1 (live (exec stopScanning session_scanning))
  /\ readerRef (exec stopScanning session_scanning) = Some (mkReader None).
Proof.
  pose proof (stopScanning_idempotent mounted) as [_ [Hidle _]].
  pose proof (stopScanning_idempotent session_scanning)
    as [_ [_ [_ [Hrel [Hrst _]]]]].
  split; [|split].
  - apply Hidle; [reflexivity | reflexivity |].
    intros rd H; injection H as <-; reflexivity.
  - apply (Hrel 1). reflexivity.
  - apply (Hrst (mkReader (Some "b"))). reflexivity.
Defined.

(** ** Enumeration *)

(** C7. When the platform denies the camera, [getCameras] leaves the denial
    message in [error] and does not touch the device list: a list that was
    empty stays empty. *)
Theorem getCameras_permission_denied (r : Render) (p : Platform) (s : Session) :
  grantsCamera p = false ->
  error (exec (getCameras r p) s) = msg_permission_denied
  /\ msg_permission_denied <> ""
  /\ cameras (exec (getCameras r p) s) = cameras s
  /\ (cameras s = [] -> cameras (exec (getCameras r p) s) = []).
Proof.
  intros Hdeny.
  assert (Hex : exec (getCameras r p) s = with_error msg_permission_denied s).
  { unfold exec, getCameras, getUserMedia. rewrite Hdeny. reflexivity. }
  rewrite Hex. repeat split; auto. discriminate.
Qed.

Lemma getCameras_permission_denied_witness :
  error (exec (perform (EnumerateDevices platform_denying)) mounted)
    = msg_permission_denied
  /\ cameras (exec (perform (EnumerateDevices platform_denying)) mounted) = [].
Proof.
  destruct (getCameras_permission_denied (render_of mounted) platform_denying
              mounted eq_refl) as [He [_ [_ Hc]]].
  split; [exact He | apply Hc; reflexivity].
Defined.

(** ** Clearing of the error message *)

Lemma setError_first_forgets {A : Type} (k : M A) (stale : string) (s : Session) :
  (setError "" ;; k) (with_error stale s) = (setError "" ;; k) s.
Proof. destruct s; reflexivity. Qed.

Lemma setError_first_trace {A : Type} (k : M A) (s : Session) :
  exists rest, trace (setError "" ;; k) s = SetError "" :: rest.
Proof.
  unfold trace, bind, setError, emit, modify; simpl.
  destruct (k (with_error "" s)) as [[a s'] l]; simpl. eauto.
Qed.

(** C10. [getCameras] and [startScanning] begin by clearing [error]: the
    first effect of either is [setError('')], and the state either leaves
    does not depend on the message that was there before. *)
Theorem error_cleared_on_entry (r : Render) (p : Platform) (s : Session) :
  (exists rest, trace (getCameras r p) s = SetError "" :: rest)
  /\ (exists rest, trace (startScanning r p) s = SetError "" :: rest)
  /\ (forall stale,
       exec (getCameras r p) (with_error stale s) = exec (getCameras r p) s)
  /\ (forall stale,
       exec (startScanning r p) (with_error stale s) = exec (startScanning r p) s).
Proof.
  split; [|split; [|split]].
  - apply setError_first_trace.
  - apply setError_first_trace.
  - intros stale. unfold exec, getCameras. now rewrite setError_first_forgets.
  - intros stale. unfold exec, startScanning. now rewrite setError_first_forgets.
Qed.

(** ** What [getCameras] does, by case *)

Lemma getCameras_denied (r : Render) (p : Platform) (s : Session) :
  grantsCamera p = false ->
  getCameras r p s =
  (tt, with_error msg_permission_denied s,
   [SetError ""; GetUserMedia; ConsoleError "Camera permission error:";
    SetError msg_permission_denied]).
Proof.
  intros H. unfold getCameras, getUserMedia. rewrite H.
  destruct s; reflexivity.
Qed.

Lemma getCameras_no_reader (r : Render) (p : Platform) (s : Session) :
  grantsCamera p = true -> readerRef s = None ->
  getCameras r p s =
  (tt, after_permission s, [SetError ""; GetUserMedia; TrackStop (nextStream s)]).
Proof.
  intros H Hr. unfold getCameras, getUserMedia. rewrite H.
  destruct s; simpl in Hr; subst; reflexivity.
Qed.

Lemma getCameras_list_fails (r : Render) (p : Platform) (s : Session) (rd : Reader) :
  grantsCamera p = true -> readerRef s = Some rd -> videoInputs p = None ->
  getCameras r p s =
  (tt, with_error msg_no_access (after_permission s),
   [SetError ""; GetUserMedia; TrackStop (nextStream s); ListVideoInputDevices;
    ConsoleError "Error accessing cameras:"; SetError msg_no_access]).
Proof.
  intros H Hr Hl. unfold getCameras, getUserMedia, listVideoInputDevices.
  rewrite H, Hl. destruct s; simpl in Hr; subst; reflexivity.
Qed.

Lemma getCameras_listed (r : Render) (p : Platform) (s : Session) (rd : Reader)
    (devices : list MediaDeviceInfo) :
  grantsCamera p = true -> readerRef s = Some rd -> videoInputs p = Some devices ->
  exec (getCameras r p) s =
    with_selectedCamera (selection_after r devices (selectedCamera s))
      (with_cameras devices (after_permission s))
  /\ exists tail,
       trace (getCameras r p) s =
       [SetError ""; GetUserMedia; TrackStop (nextStream s); ListVideoInputDevices;
        SetCameras devices] ++ tail
       /\ (tail = [] \/ exists id, tail = [SetSelectedCamera id]).
Proof.
  intros H Hr Hl. unfold exec, trace, getCameras, getUserMedia, listVideoInputDevices.
  rewrite H, Hl. destruct s as [sc cs sel err rf h v lv nx tm]; simpl in Hr; subst.
  destruct devices as [|first rest]; simpl.
  - split; [reflexivity | exists []; auto].
  - destruct (Js.truthy (r_selectedCamera r)); simpl.
    + split; [reflexivity | exists []; auto].
    + split; [reflexivity | eexists; split; [reflexivity | eauto]].
Qed.

(** Facts that hold on every path of [getCameras]. *)
Lemma getCameras_frame (r : Render) (p : Platform) (s : Session) :
  isScanning (exec (getCameras r p) s) = isScanning s
  /\ readerRef (exec (getCameras r p) s) = readerRef s
  /\ streamRef (exec (getCameras r p) s) = streamRef s
  /\ decode_starts (trace (getCameras r p) s) = []
  /\ enumeration_requested (trace (getCameras r p) s) = true.
Proof.
  destruct (grantsCamera p) eqn:Hg.
  - destruct (readerRef s) as [rd|] eqn:Hr.
    + destruct (videoInputs p) as [devices|] eqn:Hl.
      * destruct (getCameras_listed r p s rd devices Hg Hr Hl)
          as [He [tail [Ht Htail]]].
        rewrite He, Ht. repeat split; auto.
        destruct Htail as [-> | [id ->]]; reflexivity.
      * unfold exec, trace. rewrite (getCameras_list_fails r p s rd Hg Hr Hl).
        repeat split; auto.
    + unfold exec, trace. rewrite (getCameras_no_reader r p s Hg Hr).
      repeat split; auto.
  - unfold exec, trace. rewrite (getCameras_denied r p s Hg). repeat split.
Qed.

(** ** Auto-selection of a camera *)

Lemma prefix_spec (n s : string) :
  String.prefix n s = true <-> exists post, s = String.append n post.
Proof.
  revert s; induction n as [|c n IH]; intros s.
  - split; [intros _; exists s; reflexivity | intros _; destruct s; reflexivity].
  - destruct s as [|c' s']; simpl.
    + split; [discriminate | intros [post H]; discriminate].
    + destruct (ascii_dec c c') as [->|Hne].
      * rewrite IH. split; intros [post H]; exists post; congruence.
      * split; [discriminate | intros [post H]; congruence].
Qed.

Lemma includes_nil (n : string) :
  Js.includes "" n = String.prefix n "" || false.
Proof. reflexivity. Qed.

Lemma includes_cons (c : ascii) (s n : string) :
  Js.includes (String c s) n = String.prefix n (String c s) || Js.includes s n.
Proof. reflexivity. Qed.

(** [includes] is the substring test. *)
Lemma includes_spec (s n : string) :
  Js.includes s n = true
  <-> exists pre post, s = String.append pre (String.append n post).
Proof.
  induction s as [|c s IH].
  - rewrite includes_nil, orb_false_r, prefix_spec. split.
    + intros [post H]. exists "", post. exact H.
    + intros [pre [post H]]. destruct pre; simpl in H; [eauto | discriminate].
  - rewrite includes_cons, orb_true_iff, IH, prefix_spec. split.
    + intros [[post H] | [pre [post H]]].
      * exists "", post. exact H.
      * exists (String c pre), post. simpl. now rewrite H.
    + intros [pre [post H]]. destruct pre as [|c' pre]; simpl in H.
      * left. eauto.
      * right. exists pre, post. congruence.
Qed.

(** A back camera is one whose lower-cased label contains a keyword. *)
Lemma isBackCamera_spec (d : MediaDeviceInfo) :
  isBackCamera d = true
  <-> exists kw, In kw back_keywords
                 /\ Js.includes (Js.toLowerCase (label d)) kw = true.
Proof.
  unfold isBackCamera, back_keywords. rewrite !orb_true_iff. split.
  - intros [[H|H]|H]; eexists; (split; [|exact H]); simpl; auto.
  - intros [kw [[<-|[<-|[<-|[]]]] H]]; auto.
Qed.

Lemma find_first_match {A : Type} (f : A -> bool) (pre : list A) (d : A)
    (post : list A) :
  (forall x, In x pre -> f x = false) -> f d = true ->
  List.find f (pre ++ d :: post) = Some d.
Proof.
  induction pre as [|x pre IH]; intros Hpre Hd; simpl.
  - now rewrite Hd.
  - rewrite (Hpre x (or_introl eq_refl)). apply IH; auto.
    intros y Hy. apply Hpre. now right.
Qed.

Lemma find_no_match {A : Type} (f : A -> bool) (l : list A) :
  (forall x, In x l -> f x = false) -> List.find f l = None.
Proof.
  induction l as [|x l IH]; intros H; simpl; [reflexivity|].
  rewrite (H x (or_introl eq_refl)). apply IH. intros y Hy. apply H. now right.
Qed.

Lemma truthy_nonempty (x : string) : Js.truthy x = true <-> x <> "".
Proof.
  unfold Js.truthy. destruct (String.eqb_spec x ""); simpl; split; congruence.
Qed.

(** A successful enumeration run from a session without selection. *)
Lemma getCameras_auto_selects (p : Platform) (s : Session) (rd : Reader)
    (first : MediaDeviceInfo) (rest : list MediaDeviceInfo) :
  grantsCamera p = true -> readerRef s = Some rd ->
  videoInputs p = Some (first :: rest) -> selectedCamera s = "" ->
  selectedCamera (exec (perform (EnumerateDevices p)) s)
    = cameraToUse first (first :: rest)
  /\ cameras (exec (perform (EnumerateDevices p)) s) = first :: rest.
Proof.
  intros Hg Hr Hl Hsel. unfold perform.
  change (exec (fun s0 => getCameras (render_of s0) p s0) s)
    with (exec (getCameras (render_of s) p) s).
  destruct (getCameras_listed (render_of s) p s rd (first :: rest) Hg Hr Hl)
    as [He _].
  rewrite He. unfold selection_after. simpl. rewrite Hsel. simpl. auto.
Qed.

(** C6, as the code has it.  After a successful enumeration of a non-empty
    list with no device selected: the first device whose label contains a
    back-camera keyword is selected when its id is not empty; the first
    enumerated device is selected when no label matches, and also when the
    matching device has an empty id. *)
Theorem auto_selection_prefers_back_camera (p : Platform) (s : Session)
    (rd : Reader) (first : MediaDeviceInfo) (rest : list MediaDeviceInfo) :
  grantsCamera p = true -> readerRef s = Some rd ->
  videoInputs p = Some (first :: rest) -> selectedCamera s = "" ->
  (forall pre d post,
      first :: rest = pre ++ d :: post ->
      (forall x, In x pre -> isBackCamera x = false) ->
      isBackCamera d = true ->
      selectedCamera (exec (perform (EnumerateDevices p)) s)
        = if Js.truthy (deviceId d) then deviceId d else deviceId first)
  /\ ((forall x, In x (first :: rest) -> isBackCamera x = false) ->
      selectedCamera (exec (perform (EnumerateDevices p)) s) = deviceId first).
Proof.
  intros Hg Hr Hl Hsel.
  destruct (getCameras_auto_selects p s rd first rest Hg Hr Hl Hsel) as [Hc _].
  rewrite Hc. unfold cameraToUse. split.
  - intros pre d post Heq Hpre Hd. rewrite Heq.
    rewrite (find_first_match isBackCamera pre d post Hpre Hd). reflexivity.
  - intros Hnone. rewrite (find_no_match isBackCamera _ Hnone). reflexivity.
Qed.

Lemma auto_selection_prefers_back_camera_witness :
  selectedCamera
    (exec (perform (EnumerateDevices (platform_with front_and_back))) mounted) = "b"
  /\ selectedCamera
       (exec (perform (EnumerateDevices (platform_with front_and_usb))) mounted) = "a".
Proof.
  split.
  - destruct (auto_selection_prefers_back_camera
                (platform_with front_and_back) mounted (mkReader None)
                (mkDevice "a" "Front") [mkDevice "b" "Back Camera"]
                eq_refl eq_refl eq_refl eq_refl) as [Hback _].
    apply (Hback [mkDevice "a" "Front"] (mkDevice "b" "Back Camera") []).
    + reflexivity.
    + intros x [<-|[]]. reflexivity.
    + reflexivity.
  - destruct (auto_selection_prefers_back_camera
                (platform_with front_and_usb) mounted (mkReader None)
                (mkDevice "a" "Front") [mkDevice "c" "USB Cam"]
                eq_refl eq_refl eq_refl eq_refl) as [_ Hnone].
    apply Hnone. intros x [<-|[<-|[]]]; reflexivity.
Defined.

(** C6, as stated, fails when the matching device has an empty id: with
    [Front] (id [a]) listed before [Back Camera] (id empty), the first device
    with a matching label is [Back Camera], yet [a] is selected. *)
Lemma auto_selection_skips_empty_id :
  let devices := [mkDevice "a" "Front"; mkDevice "" "Back Camera"] in
  let s' := exec (perform (EnumerateDevices (platform_with devices))) mounted in
  selectedCamera mounted = ""
  /\ List.find isBackCamera devices = Some (mkDevice "" "Back Camera")
  /\ selectedCamera s' = "a"
  /\ selectedCamera s' <> deviceId (mkDevice "" "Back Camera").
Proof. repeat split. discriminate. Qed.

(** ** What [startScanning] does, by case *)

Lemma startScanning_no_reader (r : Render) (p : Platform) (s : Session) :
  readerRef s = None ->
  startScanning r p s =
  (tt, with_error "" s, [SetError ""; ConsoleError "Reader not initialized"]).
Proof.
  intros Hr. destruct s; simpl in Hr; subst; reflexivity.
Qed.

Lemma startScanning_enumerates (r : Render) (p : Platform) (s : Session)
    (rd : Reader) :
  readerRef s = Some rd -> must_enumerate r = true ->
  exec (startScanning r p) s = exec (getCameras r p) s
  /\ trace (startScanning r p) s = SetError "" :: trace (getCameras r p) (with_error "" s).
Proof.
  intros Hr Hen.
  assert (Hforget : exec (getCameras r p) (with_error "" s) = exec (getCameras r p) s).
  { unfold exec, getCameras. now rewrite setError_first_forgets. }
  rewrite <- Hforget.
  unfold exec, trace, startScanning, bind at 1 2 3 4, setError, bind, emit, modify, get;
    simpl.
  rewrite Hr. fold (must_enumerate r). rewrite Hen.
  destruct (getCameras r p (with_error "" s)) as [[u s'] l]. split; reflexivity.
Qed.

Lemma startScanning_scans (r : Render) (p : Platform) (s : Session) (rd : Reader) :
  readerRef s = Some rd -> must_enumerate r = false ->
  startScanning r p s =
  (setError "" ;;
   (if r_isScanning r then stopScanning else skip) ;;
   attempt_decode r p) s.
Proof.
  intros Hr Hen.
  unfold startScanning, attempt_decode. fold (must_enumerate r). rewrite Hen.
  destruct s as [sc cs sel err rf h v lv nx tm]; simpl in Hr; subst.
  destruct p as [g l [|]], (r_isScanning r), h as [h|]; reflexivity.
Qed.

(** On the scanning path the selection and the device list are untouched. *)
Lemma startScanning_scans_frame (r : Render) (p : Platform) (s : Session) :
  must_enumerate r = false ->
  selectedCamera (exec (startScanning r p) s) = selectedCamera s
  /\ cameras (exec (startScanning r p) s) = cameras s.
Proof.
  intros Hen. destruct (readerRef s) as [rd|] eqn:Hr.
  - unfold exec. rewrite (startScanning_scans r p s rd Hr Hen).
    destruct s as [sc cs sel err rf h v lv nx tm]; simpl in Hr; subst.
    destruct p as [g l [|]], (r_isScanning r), h as [h|]; split; reflexivity.
  - unfold exec. rewrite (startScanning_no_reader r p s Hr). split; reflexivity.
Qed.

(** C9, as the code has it.  When the reader does not exist, [startScanning]
    returns early: it clears [error], writes to the console only, and leaves
    everything else, [isScanning] included, as it was. *)
Theorem startScanning_without_reader_is_silent (r : Render) (p : Platform)
    (s : Session) :
  readerRef s = None ->
  exec (startScanning r p) s = with_error "" s
  /\ trace (startScanning r p) s
     = [SetError ""; ConsoleError "Reader not initialized"]
  /\ error (exec (startScanning r p) s) = ""
  /\ isScanning (exec (startScanning r p) s) = isScanning s.
Proof.
  intros Hr. unfold exec, trace. rewrite (startScanning_no_reader r p s Hr).
  repeat split.
Qed.

Lemma startScanning_without_reader_is_silent_witness :
  exec (perform (StartScanning (platform_with front_and_back))) session_without_reader
  = session_without_reader.
Proof.
  exact (proj1 (startScanning_without_reader_is_silent
                  (render_of session_without_reader)
                  (platform_with front_and_back) session_without_reader eq_refl)).
Defined.

(** C9, as stated, fails: with no reader, no message is left in [error]. *)
Lemma startScanning_without_reader_leaves_no_message :
  readerRef session_without_reader = None
  /\ error (exec (perform (StartScanning (platform_with front_and_back)))
              session_without_reader) = ""
  /\ ~ Js.truthy (error (exec (perform (StartScanning (platform_with front_and_back)))
                           session_without_reader)) = true.
Proof. repeat split. discriminate. Qed.

(** C8, as the code has it.  With a reader, no device selected and no device
    known, [startScanning] does what [getCameras] does and nothing more: the
    permission prompt is raised, no decode loop is started and [isScanning]
    keeps its value. *)
Theorem startScanning_without_devices_enumerates (p : Platform) (s : Session)
    (rd : Reader) :
  readerRef s = Some rd -> selectedCamera s = "" -> cameras s = [] ->
  exec (perform (StartScanning p)) s = exec (perform (EnumerateDevices p)) s
  /\ enumeration_requested (trace (perform (StartScanning p)) s) = true
  /\ decode_starts (trace (perform (StartScanning p)) s) = []
  /\ isScanning (exec (perform (StartScanning p)) s) = isScanning s
  /\ readerRef (exec (perform (StartScanning p)) s) = readerRef s.
Proof.
  intros Hr Hsel Hcs.
  assert (Hen : must_enumerate (render_of s) = true).
  { unfold must_enumerate, render_of; simpl. now rewrite Hsel, Hcs. }
  destruct (startScanning_enumerates (render_of s) p s rd Hr Hen) as [He Ht].
  change (exec (perform (StartScanning p)) s)
    with (exec (startScanning (render_of s) p) s).
  change (trace (perform (StartScanning p)) s)
    with (trace (startScanning (render_of s) p) s).
  change (exec (perform (EnumerateDevices p)) s)
    with (exec (getCameras (render_of s) p) s).
  rewrite Ht, He.
  destruct (getCameras_frame (render_of s) p s) as [Hsc [Hrd _]].
  destruct (getCameras_frame (render_of s) p (with_error "" s))
    as [_ [_ [_ [Hdec Henum]]]].
  repeat split; auto.
Qed.

Lemma startScanning_without_devices_enumerates_witness :
  exec (perform (StartScanning (platform_with front_and_back))) mounted
  = session_ready.
Proof.
  exact (proj1 (startScanning_without_devices_enumerates
                  (platform_with front_and_back) mounted (mkReader None)
                  eq_refl eq_refl eq_refl)).
Defined.

(** C8, as stated, fails without a reader: no device is selected, none is
    known, and [startScanning] requests no enumeration. *)
Lemma startScanning_without_reader_skips_enumeration :
  selectedCamera session_without_reader = ""
  /\ cameras session_without_reader = []
  /\ enumeration_requested
       (trace (perform (StartScanning (platform_with front_and_back)))
          session_without_reader) = false
  /\ cameras (exec (perform (StartScanning (platform_with front_and_back)))
                session_without_reader) = [].
Proof. repeat split. Qed.

(** ** Restarting a scan *)

Lemma startScanningWith_readerReset (r : Render) (p : Platform) :
  startScanningWith readerReset r p = startScanning r p.
Proof. reflexivity. Qed.

Lemma stopScanningWith_readerReset : stopScanningWith readerReset = stopScanning.
Proof. reflexivity. Qed.

(** On its scanning path [startScanning] is [before_decode] followed by the
    decode start. *)
Lemma engine_restart_run (r : Render) (p : Platform) (s : Session) (v : Stream) :
  scan_active s v -> must_enumerate r = false ->
  live (exec (before_decode engineReset r) s) = []
  /\ In ReaderReset (trace (before_decode engineReset r) s)
  /\ trace (startScanningWith engineReset r p) s
     = trace (before_decode engineReset r) s
       ++ DecodeFromVideoDevice (r_selectedCamera r)
          :: (if decodeThrows p
              then [ConsoleError "Error in decoding process:";
                    SetError msg_decode_failed; SetIsScanning false]
              else [SetTimeout CaptureStream])
  /\ exec (startScanningWith engineReset r p) s
     = (if decodeThrows p
        then mkSession false (cameras s) (selectedCamera s) msg_decode_failed
               (Some (mkReader None)) (if r_isScanning r then None else streamRef s)
               None [] (nextStream s) (timers s)
        else mkSession true (cameras s) (selectedCamera s) ""
               (Some (mkReader (Some (r_selectedCamera r))))
               (if r_isScanning r then None else streamRef s)
               (Some (nextStream s)) [nextStream s] (S (nextStream s))
               (timers s ++ [CaptureStream])).
Proof.
  intros [Hsc [[id Hr] [Hv Hl]]] Hen.
  unfold exec, trace, startScanningWith. fold (must_enumerate r). rewrite Hen.
  destruct s as [sc cs sel err rf h vs lv nx tm]; simpl in *; subst.
  destruct r as [rsc rcs rsel]; simpl in *.
  destruct p as [g l dt]; simpl.
  destruct h as [h|], rsc, dt;
    unfold before_decode, stopScanningWith, bind, setError, setIsScanning,
      engineReset, decodeFromVideoDevice, setTimeout, stopTracks, acquireStream,
      consoleError, emit, modify, get, ret, skip; simpl;
    try (destruct (Nat.eq_dec h v) as [_|_]; simpl);
    destruct (Nat.eq_dec v v) as [_|Hne]; try contradiction; simpl;
    repeat split; auto 10.
Qed.

Lemma engine_first_start (r : Render) (p : Platform) (s : Session) :
  idle_ready s -> must_enumerate r = false -> decodeThrows p = false ->
  scan_active (exec (startScanningWith engineReset r p) s) (nextStream s)
  /\ nextStream (exec (startScanningWith engineReset r p) s) = S (nextStream s).
Proof.
  intros [Hsc [Hr [Hv [Hl Hh]]]] Hen Hok.
  unfold exec, startScanningWith. fold (must_enumerate r). rewrite Hen.
  destruct s as [sc cs sel err rf h vs lv nx tm]; simpl in *; subst.
  destruct r as [rsc rcs rsel]; simpl in *.
  destruct p as [g l dt]; simpl in *; subst.
  destruct rsc; unfold scan_active; simpl; repeat split; eauto.
Qed.




(** ** Changing the camera *)

Lemma changeCamera_exec (x : string) (s : Session) :
  exec (perform (SelectDevice x)) s =
  with_timers (timers s ++ [RestartScan (render_of s) x])
    (with_selectedCamera x (if isScanning s then exec stopScanning s else s)).
Proof.
  destruct s as [[|] cs sel err [rd|] [h|] v lv nx tm]; reflexivity.
Qed.

Lemma changeCamera_trace (x : string) (s : Session) :
  trace (perform (SelectDevice x)) s =
  (if isScanning s then trace stopScanning s else [])
  ++ [SetSelectedCamera x; SetTimeout (RestartScan (render_of s) x)].
Proof.
  destruct s as [[|] cs sel err [rd|] [h|] v lv nx tm]; reflexivity.
Qed.

(** C3, as the code has it.  [changeCamera] never looks the id up in the
    device list.  For every id: a scan in progress is stopped (the tracks of
    a held stream are stopped, the handle is dropped, the engine is reset),
    the id becomes the selected one and a restart is scheduled; the device
    list and the error message are untouched, and when no scan is in
    progress so are the stream handle, the running streams and the
    engine. *)
Theorem changeCamera_selects_any_id (x : string) (s : Session) :
  selectedCamera (exec (perform (SelectDevice x)) s) = x
  /\ isScanning (exec (perform (SelectDevice x)) s) = false
  /\ cameras (exec (perform (SelectDevice x)) s) = cameras s
  /\ error (exec (perform (SelectDevice x)) s) = error s
  /\ timers (exec (perform (SelectDevice x)) s)
     = timers s ++ [RestartScan (render_of s) x]
  /\ trace (perform (SelectDevice x)) s
     = (if isScanning s then trace stopScanning s else [])
       ++ [SetSelectedCamera x; SetTimeout (RestartScan (render_of s) x)]
  /\ (isScanning s = true ->
      streamRef (exec (perform (SelectDevice x)) s) = None
      /\ (forall h, streamRef s = Some h ->
            In (TrackStop h) (trace (perform (SelectDevice x)) s)
            /\ ~ In h (live (exec (perform (SelectDevice x)) s)))
      /\ (forall rd, readerRef s = Some rd ->
            In ReaderReset (trace (perform (SelectDevice x)) s)
            /\ readerRef (exec (perform (SelectDevice x)) s)
               = Some (mkReader None))
      /\ (readerRef s = None ->
          readerRef (exec (perform (SelectDevice x)) s) = None))
  /\ (isScanning s = false ->
      streamRef (exec (perform (SelectDevice x)) s) = streamRef s
      /\ live (exec (perform (SelectDevice x)) s) = live s
      /\ readerRef (exec (perform (SelectDevice x)) s) = readerRef s).
Proof.
  rewrite changeCamera_exec, changeCamera_trace.
  destruct (isScanning s) eqn:Hsc.
  - rewrite stopScanning_exec, stopScanning_trace; simpl.
    split; [reflexivity|]. split; [reflexivity|]. split; [reflexivity|].
    split; [reflexivity|]. split; [reflexivity|]. split; [reflexivity|].
    split; [|intros Hf; discriminate Hf].
    intros _. split; [reflexivity|]. split; [|split].
    + intros h Hh. rewrite Hh. split.
      * simpl. now left.
      * apply remove_not_In.
    + intros rd Hrd. rewrite Hrd. split; [|reflexivity].
      apply in_or_app. left. apply in_or_app. right.
      apply in_or_app. left. simpl. now left.
    + intros Hrd. now rewrite Hrd.
  - simpl. repeat split; try discriminate. exact Hsc.
Qed.

Lemma changeCamera_selects_any_id_witness :
  (streamRef (exec (perform (SelectDevice "a")) session_scanning) = None
   /\ In (TrackStop 1) (trace (perform (SelectDevice "a")) session_scanning)
   /\ In ReaderReset (trace (perform (SelectDevice "a")) session_scanning)
   /\ readerRef (exec (perform (SelectDevice "a")) session_scanning)
      = Some (mkReader None))
  /\ live (exec (perform (SelectDevice "a")) session_ready) = live session_ready.
Proof.
  destruct (changeCamera_selects_any_id "a" session_scanning)
    as [_ [_ [_ [_ [_ [_ [Hscan _]]]]]]].
  destruct (Hscan eq_refl) as [Hh [Htracks [Hreset _]]].
  destruct (Htracks 1 eq_refl) as [Hstop _].
  destruct (Hreset (mkReader (Some "b")) eq_refl) as [Hin Hidle].
  split.
  - repeat split; assumption.
  - apply (changeCamera_selects_any_id "a" session_ready). reflexivity.
Defined.

(** C3, as stated, fails: an id that no listed device has is selected all the
    same, the running scan is stopped, and the scheduled restart starts a
    new stream. *)
Lemma changeCamera_unknown_id_is_not_a_noop :
  let p := platform_with front_and_back in
  let s' := exec (perform (SelectDevice "ghost")) session_scanning in
  ~ In "ghost" (ids (cameras session_scanning))
  /\ s' <> session_scanning
  /\ selectedCamera session_scanning = "b" /\ selectedCamera s' = "ghost"
  /\ isScanning session_scanning = true /\ isScanning s' = false
  /\ live session_scanning = [1] /\ live s' = []
  /\ live (exec (tick p) s') = [2].
Proof.
  repeat split; try discriminate.
  intros [H|[H|[]]]; discriminate H.
Qed.

(** ** The selected device and the device list *)

Lemma cameraToUse_listed (first : MediaDeviceInfo) (rest : list MediaDeviceInfo) :
  In (cameraToUse first (first :: rest)) (ids (first :: rest)).
Proof.
  unfold cameraToUse, Js.or_else.
  destruct (List.find isBackCamera (first :: rest)) as [d|] eqn:Hfind.
  - simpl option_map. cbv iota. destruct (Js.truthy (deviceId d)).
    + apply find_some in Hfind. apply in_map. exact (proj1 Hfind).
    + left; reflexivity.
  - left; reflexivity.
Qed.

Lemma getCameras_keeps_selection_valid (p : Platform) (s : Session) :
  selection_valid s -> admissible s (EnumerateDevices p) ->
  selection_valid (exec (perform (EnumerateDevices p)) s).
Proof.
  intros Hval Hadm.
  change (exec (perform (EnumerateDevices p)) s)
    with (exec (getCameras (render_of s) p) s).
  destruct (grantsCamera p) eqn:Hg.
  - destruct (readerRef s) as [rd|] eqn:Hr.
    + destruct (videoInputs p) as [devices|] eqn:Hl.
      * destruct (getCameras_listed (render_of s) p s rd devices Hg Hr Hl) as [He _].
        rewrite He. unfold selection_valid, selection_after; simpl.
        destruct (Js.truthy (selectedCamera s)) eqn:Ht.
        -- apply truthy_nonempty in Ht.
           assert (Hin : In (selectedCamera s) (ids devices))
             by (apply Hadm; auto).
           destruct devices; simpl; auto.
        -- destruct devices as [|first rest]; simpl.
           ++ intros Hne. apply truthy_nonempty in Hne. congruence.
           ++ intros _. apply cameraToUse_listed.
      * unfold exec. rewrite (getCameras_list_fails _ p s rd Hg Hr Hl). exact Hval.
    + unfold exec. rewrite (getCameras_no_reader _ p s Hg Hr). exact Hval.
  - unfold exec. rewrite (getCameras_denied _ p s Hg). exact Hval.
Qed.

Lemma startScanning_keeps_selection_valid (p : Platform) (s : Session) :
  selection_valid s -> selection_valid (exec (perform (StartScanning p)) s).
Proof.
  intros Hval.
  change (exec (perform (StartScanning p)) s)
    with (exec (startScanning (render_of s) p) s).
  destruct (must_enumerate (render_of s)) eqn:Hen.
  - destruct (readerRef s) as [rd|] eqn:Hr.
    + destruct (startScanning_enumerates (render_of s) p s rd Hr Hen) as [He _].
      rewrite He. apply (getCameras_keeps_selection_valid p s Hval).
      intros l _ _ Hne. exfalso.
      unfold must_enumerate, render_of in Hen; simpl in Hen.
      apply truthy_nonempty in Hne. rewrite Hne in Hen. discriminate.
    + unfold exec. rewrite (startScanning_no_reader _ p s Hr). exact Hval.
  - destruct (startScanning_scans_frame (render_of s) p s Hen) as [Hs Hc].
    unfold selection_valid. rewrite Hs, Hc. exact Hval.
Qed.

Lemma perform_keeps_selection_valid (o : Op) (s : Session) :
  selection_valid s -> admissible s o -> selection_valid (exec (perform o) s).
Proof.
  intros Hval Hadm. destruct o as [p | x | p |].
  - now apply getCameras_keeps_selection_valid.
  - unfold selection_valid. rewrite changeCamera_exec. simpl.
    replace (cameras (if isScanning s then exec stopScanning s else s))
      with (cameras s)
      by (destruct (isScanning s); [now rewrite stopScanning_exec | reflexivity]).
    simpl in Hadm.
    intros Hne. destruct Hadm; [contradiction | assumption].
  - now apply startScanning_keeps_selection_valid.
  - change (exec (perform StopScanning) s) with (exec stopScanning s).
    rewrite stopScanning_exec. exact Hval.
Qed.

(** C4, as the code has it.  From the mounted session, as long as
    [selectDevice] is only given ids of listed devices and every refresh made
    while a device is selected still lists it, the selected id, when set, is
    the id of a listed device. *)
Theorem selection_valid_under_admissible_use (ops : list Op) :
  admissible_all ops mounted -> selection_valid (perform_all ops mounted).
Proof.
  assert (Hgen : forall l s, selection_valid s -> admissible_all l s ->
                             selection_valid (perform_all l s)).
  { induction l as [|o l IH]; intros s Hval Hadm; simpl.
    - exact Hval.
    - destruct Hadm as [Ho Hrest]. apply IH; [|exact Hrest].
      now apply perform_keeps_selection_valid. }
  apply Hgen. intros Hne. exfalso. apply Hne. reflexivity.
Qed.

Lemma selection_valid_under_admissible_use_witness :
  selection_valid
    (perform_all [EnumerateDevices (platform_with front_and_back);
                  SelectDevice "a";
                  StartScanning (platform_with front_and_back);
                  EnumerateDevices (platform_with front_and_back);
                  StopScanning] mounted).
Proof.
  apply selection_valid_under_admissible_use. simpl.
  repeat split; auto.
  - intros l _ _ Hne. exfalso. apply Hne. reflexivity.
  - intros l _ Hl _. injection Hl as <-. simpl; auto.
Defined.

(** C4, as stated, fails: a refresh that no longer lists the selected device
    keeps the selection, and [selectDevice] stores an id no device has. *)
Lemma stale_selection_survives_refresh :
  let s := perform_all [EnumerateDevices (platform_with front_and_back);
                        EnumerateDevices (platform_with [mkDevice "c" "USB Cam"])]
             mounted in
  let s2 := perform_all [SelectDevice "ghost"] mounted in
  reachable s
  /\ cameras s = [mkDevice "c" "USB Cam"] /\ selectedCamera s = "b"
  /\ ~ selection_valid s
  /\ reachable s2 /\ ~ selection_valid s2.
Proof.
  repeat split.
  - eexists; reflexivity.
  - intros H. destruct H as [H|[]]; [discriminate | discriminate H].
  - eexists; reflexivity.
  - intros H. destruct H; discriminate.
Qed.

(** * Further properties of the hook *)

(** ** Enumeration *)

Lemma remove_fresh_last (n : nat) (l : list nat) :
  ~ In n l -> List.remove Nat.eq_dec n (l ++ [n]) = l.
Proof.
  intros Hn. rewrite remove_app, (notin_remove Nat.eq_dec l n Hn). simpl.
  destruct (Nat.eq_dec n n) as [_|Hne]; [apply app_nil_r | contradiction].
Qed.

(** [getCameras] on each of its four paths. *)
Lemma getCameras_paths (r : Render) (p : Platform) (s : Session) :
  (grantsCamera p = false
   /\ exec (getCameras r p) s = with_error msg_permission_denied s)
  \/ (grantsCamera p = true /\ readerRef s = None
      /\ exec (getCameras r p) s = after_permission s)
  \/ (grantsCamera p = true /\ readerRef s <> None /\ videoInputs p = None
      /\ exec (getCameras r p) s = with_error msg_no_access (after_permission s))
  \/ (exists devices,
        grantsCamera p = true /\ readerRef s <> None
        /\ videoInputs p = Some devices
        /\ exec (getCameras r p) s =
           with_selectedCamera (selection_after r devices (selectedCamera s))
             (with_cameras devices (after_permission s))).
Proof.
  destruct (grantsCamera p) eqn:Hg.
  - destruct (readerRef s) as [rd|] eqn:Hr.
    + destruct (videoInputs p) as [devices|] eqn:Hl.
      * right; right; right. exists devices.
        destruct (getCameras_listed r p s rd devices Hg Hr Hl) as [He _].
        repeat split; auto. discriminate.
      * right; right; left. unfold exec.
        rewrite (getCameras_list_fails r p s rd Hg Hr Hl).
        repeat split; auto. discriminate.
    + right; left. unfold exec. rewrite (getCameras_no_reader r p s Hg Hr).
      repeat split; auto.
  - left. unfold exec. rewrite (getCameras_denied r p s Hg). split; reflexivity.
Qed.

(** X1. The stream [getCameras] takes to raise the permission prompt is
    always released: the running streams are the same before and after, and
    when the camera was granted the only track stop of the call is that
    stream's. *)
Theorem getCameras_releases_permission_stream (r : Render) (p : Platform)
    (s : Session) :
  ~ In (nextStream s) (live s) ->
  live (exec (getCameras r p) s) = live s
  /\ (grantsCamera p = true ->
      released (trace (getCameras r p) s) = [nextStream s]).
Proof.
  intros Hfresh. split.
  - destruct (getCameras_paths r p s)
      as [[_ He] | [[_ [_ He]] | [[_ [_ [_ He]]] | [devices [_ [_ [_ He]]]]]]];
      rewrite He; simpl; auto using remove_fresh_last.
  - intros Hg. destruct (readerRef s) as [rd|] eqn:Hr.
    + destruct (videoInputs p) as [devices|] eqn:Hl.
      * destruct (getCameras_listed r p s rd devices Hg Hr Hl)
          as [_ [tail [Ht Htail]]].
        rewrite Ht. destruct Htail as [-> | [id ->]]; reflexivity.
      * unfold trace. rewrite (getCameras_list_fails r p s rd Hg Hr Hl).
        reflexivity.
    + unfold trace. rewrite (getCameras_no_reader r p s Hg Hr). reflexivity.
Qed.

Lemma getCameras_releases_permission_stream_witness :
  live (exec (getCameras (render_of session_scanning)
                (platform_with front_and_usb)) session_scanning) = [1]
  /\ released (trace (getCameras (render_of session_scanning)
                        (platform_with front_and_usb)) session_scanning) = [2].
Proof.
  assert (Hfresh : ~ In (nextStream session_scanning) (live session_scanning)).
  { simpl. intros [H|[]]. discriminate H. }
  destruct (getCameras_releases_permission_stream
              (render_of session_scanning) (platform_with front_and_usb)
              session_scanning Hfresh) as [Hl Hr].
  split; [exact Hl | apply Hr; reflexivity].
Defined.

(** X2. Enumerating devices never interferes with a scan: whatever the
    platform answers, [isScanning], the reader, the stream handle, the
    preview element and the pending timeouts are left as they were, and no
    decode loop is started. *)
Theorem enumeration_leaves_the_scan_alone (r : Render) (p : Platform)
    (s : Session) :
  isScanning (exec (getCameras r p) s) = isScanning s
  /\ readerRef (exec (getCameras r p) s) = readerRef s
  /\ streamRef (exec (getCameras r p) s) = streamRef s
  /\ videoSrc (exec (getCameras r p) s) = videoSrc s
  /\ timers (exec (getCameras r p) s) = timers s
  /\ decode_starts (trace (getCameras r p) s) = [].
Proof.
  destruct (getCameras_frame r p s) as [_ [_ [_ [Hdec _]]]].
  destruct (getCameras_paths r p s)
    as [[_ He] | [[_ [_ He]] | [[_ [_ [_ He]]] | [devices [_ [_ [_ He]]]]]]];
    rewrite He; repeat split; auto.
Qed.

(** The state a fired timeout leaves. *)
Lemma tick_exec (p : Platform) (s : Session) :
  exec (tick p) s =
  match timers s with
  | [] => s
  | CaptureStream :: rest =>
      match videoSrc s with
      | Some v => with_streamRef (Some v) (with_timers rest s)
      | None => with_timers rest s
      end
  | RestartScan r x :: rest =>
      if Js.truthy x
      then exec (startScanning r p) (with_timers rest s)
      else with_timers rest s
  end.
Proof.
  destruct s as [sc cs sel err rf h v lv nx [|[|r x] rest]].
  - reflexivity.
  - destruct v; reflexivity.
  - unfold exec, tick, bind, get, modify, fireTimer; simpl.
    destruct (Js.truthy x); [|reflexivity].
    destruct (startScanning r p _) as [[u s'] l]. reflexivity.
Qed.

(** X3. [getCameras] decides by the [selectedCamera] its closure captured,
    not by the current one.  When the captured value is non-empty, or when
    no non-empty list arrives, the current selection is kept.  When the
    captured value is empty and a non-empty list arrives, the selection is
    overwritten with the auto-selected camera, even if a device has been
    selected since; the restart that [changeCamera] schedules from a session
    without devices does this. *)
Theorem enumeration_decides_by_captured_selection (r : Render) (p : Platform)
    (s : Session) :
  (r_selectedCamera r <> "" ->
   selectedCamera (exec (getCameras r p) s) = selectedCamera s)
  /\ (grantsCamera p = false \/ readerRef s = None \/ videoInputs p = None
      \/ videoInputs p = Some [] ->
      selectedCamera (exec (getCameras r p) s) = selectedCamera s)
  /\ (forall rd first rest,
        r_selectedCamera r = "" -> grantsCamera p = true ->
        readerRef s = Some rd -> videoInputs p = Some (first :: rest) ->
        selectedCamera (exec (getCameras r p) s)
        = cameraToUse first (first :: rest))
  /\ (forall rd first rest x,
        selectedCamera s = "" -> cameras s = [] -> timers s = [] ->
        readerRef s = Some rd -> x <> "" ->
        grantsCamera p = true -> videoInputs p = Some (first :: rest) ->
        selectedCamera (exec (perform (SelectDevice x)) s) = x
        /\ selectedCamera (exec (tick p) (exec (perform (SelectDevice x)) s))
           = cameraToUse first (first :: rest)).
Proof.
  split; [|split; [|split]].
  - intros Hsel. apply truthy_nonempty in Hsel.
    destruct (getCameras_paths r p s)
      as [[_ He] | [[_ [_ He]] | [[_ [_ [_ He]]] | [devices [_ [_ [_ He]]]]]]];
      rewrite He; simpl; auto.
    unfold selection_after. rewrite Hsel. destruct devices; reflexivity.
  - intros Hcase.
    destruct (getCameras_paths r p s)
      as [[_ He] | [[_ [_ He]] | [[_ [_ [_ He]]]
          | [devices [Hg [Hr [Hl He]]]]]]];
      rewrite He; simpl; auto.
    destruct Hcase as [H | [H | [H | H]]]; try congruence.
    rewrite Hl in H. injection H as ->. reflexivity.
  - intros rd first rest Hsel Hg Hr Hl.
    destruct (getCameras_listed r p s rd (first :: rest) Hg Hr Hl) as [He _].
    rewrite He. unfold selection_after; simpl. rewrite Hsel. reflexivity.
  - intros rd first rest x Hsel Hcs Htm Hr Hx Hg Hl.
    apply truthy_nonempty in Hx.
    pose proof (changeCamera_exec x s) as Hs1.
    split; [now rewrite Hs1|].
    remember (exec (perform (SelectDevice x)) s) as s1 eqn:Es1.
    assert (Ht1 : timers s1 = [RestartScan (render_of s) x])
      by (rewrite Hs1; simpl; now rewrite Htm).
    assert (Hr2 : exists rd2, readerRef (with_timers [] s1) = Some rd2).
    { rewrite Hs1; simpl.
      destruct (isScanning s); [rewrite stopScanning_exec; simpl|];
        rewrite Hr; simpl; eauto. }
    destruct Hr2 as [rd2 Hr2].
    assert (Hen : must_enumerate (render_of s) = true)
      by (unfold must_enumerate, render_of; simpl; now rewrite Hsel, Hcs).
    rewrite tick_exec, Ht1, Hx.
    destruct (startScanning_enumerates (render_of s) p (with_timers [] s1) rd2
                Hr2 Hen) as [He _].
    rewrite He.
    destruct (getCameras_listed (render_of s) p (with_timers [] s1) rd2
                (first :: rest) Hg Hr2 Hl) as [He2 _].
    rewrite He2. unfold selection_after, render_of; simpl. rewrite Hsel.
    reflexivity.
Qed.

Lemma enumeration_decides_by_captured_selection_witness :
  selectedCamera
    (exec (getCameras (render_of session_ready) (platform_with front_and_usb))
       session_ready) = "b"
  /\ selectedCamera (exec (perform (SelectDevice "ghost")) mounted) = "ghost"
  /\ selectedCamera
       (exec (tick (platform_with front_and_back))
          (exec (perform (SelectDevice "ghost")) mounted)) = "b".
Proof.
  destruct (enumeration_decides_by_captured_selection
              (render_of session_ready) (platform_with front_and_usb)
              session_ready) as [Hkeep _].
  destruct (enumeration_decides_by_captured_selection
              (render_of mounted) (platform_with front_and_back) mounted)
    as [_ [_ [_ Hrestart]]].
  assert (Hx : "ghost" <> "") by discriminate.
  destruct (Hrestart (mkReader None) (mkDevice "a" "Front")
              [mkDevice "b" "Back Camera"] "ghost"
              eq_refl eq_refl eq_refl eq_refl Hx eq_refl eq_refl)
    as [Hsel Hover].
  split; [|split].
  - apply Hkeep. discriminate.
  - exact Hsel.
  - exact Hover.
Defined.

(** X4. When listing the video inputs fails, [getCameras] reports
    "Could not access cameras..." and keeps the device list and the
    selection it had. *)
Theorem listing_failure_keeps_devices (r : Render) (p : Platform) (s : Session)
    (rd : Reader) :
  grantsCamera p = true -> readerRef s = Some rd -> videoInputs p = None ->
  error (exec (getCameras r p) s) = msg_no_access
  /\ cameras (exec (getCameras r p) s) = cameras s
  /\ selectedCamera (exec (getCameras r p) s) = selectedCamera s.
Proof.
  intros Hg Hr Hl. unfold exec.
  rewrite (getCameras_list_fails r p s rd Hg Hr Hl). repeat split.
Qed.

Lemma listing_failure_keeps_devices_witness :
  error (exec (getCameras (render_of session_ready)
                 (mkPlatform true None false)) session_ready) = msg_no_access
  /\ cameras (exec (getCameras (render_of session_ready)
                      (mkPlatform true None false)) session_ready)
     = front_and_back.
Proof.
  destruct (listing_failure_keeps_devices (render_of session_ready)
              (mkPlatform true None false) session_ready (mkReader None)
              eq_refl eq_refl eq_refl) as [He [Hc _]].
  split; [exact He | exact Hc].
Defined.

(** X5. An enumeration that finds no device stores the empty list, selects
    nothing and reports nothing; with no selection the session is then as
    ready to enumerate as before: the next [startScanning] enumerates again
    instead of scanning. *)
Theorem empty_enumeration_asks_again (p p' : Platform) (s : Session)
    (rd : Reader) :
  grantsCamera p = true -> readerRef s = Some rd -> videoInputs p = Some [] ->
  selectedCamera s = "" ->
  let s' := exec (perform (EnumerateDevices p)) s in
  cameras s' = [] /\ selectedCamera s' = "" /\ error s' = ""
  /\ exec (perform (StartScanning p')) s' = exec (perform (EnumerateDevices p')) s'
  /\ decode_starts (trace (perform (StartScanning p')) s') = [].
Proof.
  intros Hg Hr Hl Hsel s'.
  assert (He : s' = with_selectedCamera (selectedCamera s)
                      (with_cameras [] (after_permission s))).
  { unfold s'.
    change (exec (perform (EnumerateDevices p)) s)
      with (exec (getCameras (render_of s) p) s).
    destruct (getCameras_listed (render_of s) p s rd [] Hg Hr Hl) as [He _].
    exact He. }
  assert (Hr' : readerRef s' = Some rd) by (rewrite He; exact Hr).
  assert (Hen : must_enumerate (render_of s') = true).
  { rewrite He. unfold must_enumerate, render_of; simpl. now rewrite Hsel. }
  destruct (startScanning_enumerates (render_of s') p' s' rd Hr' Hen) as [Hx Ht].
  split; [now rewrite He|]. split; [now rewrite He|]. split; [now rewrite He|].
  split; [exact Hx|].
  change (trace (perform (StartScanning p')) s')
    with (trace (startScanning (render_of s') p') s').
  rewrite Ht. simpl.
  exact (proj1 (proj2 (proj2 (proj2
           (getCameras_frame (render_of s') p' (with_error "" s')))))).
Qed.

Lemma empty_enumeration_asks_again_witness :
  cameras (exec (perform (EnumerateDevices (platform_with []))) mounted) = []
  /\ exec (perform (StartScanning (platform_with front_and_back)))
       (exec (perform (EnumerateDevices (platform_with []))) mounted)
     = exec (perform (EnumerateDevices (platform_with front_and_back)))
         (exec (perform (EnumerateDevices (platform_with []))) mounted).
Proof.
  destruct (empty_enumeration_asks_again (platform_with [])
              (platform_with front_and_back) mounted (mkReader None)
              eq_refl eq_refl eq_refl eq_refl) as [Hc [_ [_ [Hx _]]]].
  split; [exact Hc | exact Hx].
Defined.

(** ** Starting, capturing the stream, stopping *)

Lemma startScanning_scan_outcome (r : Render) (p : Platform) (s : Session)
    (rd : Reader) :
  readerRef s = Some rd -> must_enumerate r = false ->
  exec (startScanning r p) s
    = (if decodeThrows p then scan_failed r s else scan_started r s)
  /\ decode_starts (trace (startScanning r p) s) = [r_selectedCamera r]
  /\ enumeration_requested (trace (startScanning r p) s) = false
  /\ released (trace (startScanning r p) s)
     = (if r_isScanning r
        then match streamRef s with Some h => [h] | None => [] end
        else []).
Proof.
  intros Hr Hen. unfold exec, trace.
  rewrite (startScanning_scans r p s rd Hr Hen).
  destruct s as [sc cs sel err rf h v lv nx tm]; simpl in Hr; subst.
  destruct p as [g l [|]], r as [[|] rc rs], h as [h|]; repeat split.
Qed.

Lemma selected_or_listed_scans (s : Session) :
  selectedCamera s <> "" \/ cameras s <> [] ->
  must_enumerate (render_of s) = false.
Proof.
  unfold must_enumerate, render_of; simpl. intros [H|H].
  - apply truthy_nonempty in H. now rewrite H.
  - destruct (cameras s); [contradiction | apply andb_false_r].
Qed.



(** X7. With devices known but none selected, [startScanning] does not
    enumerate again: it starts the decode loop with the empty device id and
    the session is scanning. *)
Theorem scanning_without_selection_uses_empty_id (p : Platform) (s : Session)
    (rd : Reader) :
  readerRef s = Some rd -> selectedCamera s = "" -> cameras s <> [] ->
  decodeThrows p = false ->
  decode_starts (trace (perform (StartScanning p)) s) = [""]
  /\ enumeration_requested (trace (perform (StartScanning p)) s) = false
  /\ isScanning (exec (perform (StartScanning p)) s) = true
  /\ readerRef (exec (perform (StartScanning p)) s) = Some (mkReader (Some "")).
Proof.
  intros Hr Hsel Hcs Hok.
  change (exec (perform (StartScanning p)) s)
    with (exec (startScanning (render_of s) p) s).
  change (trace (perform (StartScanning p)) s)
    with (trace (startScanning (render_of s) p) s).
  destruct (startScanning_scan_outcome (render_of s) p s rd Hr
              (selected_or_listed_scans s (or_intror Hcs)))
    as [He [Hd [Hn _]]].
  rewrite He, Hd, Hn, Hok. simpl. rewrite Hsel. repeat split.
Qed.

Lemma scanning_without_selection_uses_empty_id_witness :
  decode_starts
    (trace (perform (StartScanning (platform_with front_and_back)))
       (exec (perform (SelectDevice "")) session_ready)) = [""].
Proof.
  assert (Hcs : cameras (exec (perform (SelectDevice "")) session_ready) <> [])
    by discriminate.
  exact (proj1 (scanning_without_selection_uses_empty_id
                  (platform_with front_and_back)
                  (exec (perform (SelectDevice "")) session_ready)
                  (mkReader None) eq_refl eq_refl Hcs eq_refl)).
Defined.

(** X8. A full cycle gives the camera back.  From an idle session, starting
    a scan, letting the delayed lookup capture the stream and stopping
    leaves the running streams as they were before the start, no handle
    held, no timeout pending and [isScanning] false. *)
Theorem start_capture_stop_releases_the_stream (p : Platform) (s : Session)
    (rd : Reader) :
  readerRef s = Some rd -> selectedCamera s <> "" \/ cameras s <> [] ->
  decodeThrows p = false ->
  isScanning s = false -> timers s = [] ->
  ~ In (nextStream s) (live s) ->
  let s1 := exec (perform (StartScanning p)) s in
  let s2 := exec (tick p) s1 in
  let s3 := exec stopScanning s2 in
  streamRef s2 = Some (nextStream s)
  /\ released (trace stopScanning s2) = [nextStream s]
  /\ live s3 = live s /\ streamRef s3 = None /\ timers s3 = []
  /\ isScanning s3 = false.
Proof.
  intros Hr Hdev Hok Hidle Htm Hfresh s1 s2 s3.
  assert (H1 : s1 = scan_started (render_of s) s).
  { unfold s1.
    change (exec (perform (StartScanning p)) s)
      with (exec (startScanning (render_of s) p) s).
    destruct (startScanning_scan_outcome (render_of s) p s rd Hr
                (selected_or_listed_scans s Hdev)) as [He _].
    now rewrite He, Hok. }
  assert (H2 : s2 = with_streamRef (Some (nextStream s)) (with_timers [] s1)).
  { unfold s2. rewrite H1. unfold scan_started, render_of; simpl.
    rewrite Hidle, Htm. reflexivity. }
  unfold s3. rewrite stopScanning_exec, stopScanning_trace, H2, H1.
  unfold scan_started, render_of; simpl. rewrite Hidle. simpl.
  repeat split. now apply remove_fresh_last.
Qed.

Lemma start_capture_stop_releases_the_stream_witness :
  live (exec stopScanning
          (exec (tick (platform_with front_and_back))
             (exec (perform (StartScanning (platform_with front_and_back)))
                session_ready))) = [].
Proof.
  assert (Hdev : selectedCamera session_ready <> "" \/ cameras session_ready <> [])
    by (left; discriminate).
  assert (Hfresh : ~ In (nextStream session_ready) (live session_ready))
    by (intros []).
  destruct (start_capture_stop_releases_the_stream
              (platform_with front_and_back) session_ready (mkReader None)
              eq_refl Hdev eq_refl eq_refl eq_refl Hfresh)
    as [_ [_ [Hl _]]].
  exact Hl.
Defined.



(** ** The restart scheduled by [changeCamera] *)

(** X10. The restart that [changeCamera] schedules runs the [startScanning]
    of the render in which the camera was changed: when it fires, the decode
    loop is started on the camera that was selected before the change, while
    [selectedCamera] holds the new id. *)
Theorem scheduled_restart_uses_previous_camera (p : Platform) (s : Session)
    (rd : Reader) (x : string) :
  readerRef s = Some rd -> selectedCamera s <> "" -> x <> "" ->
  timers s = [] -> decodeThrows p = false ->
  let s1 := exec (perform (SelectDevice x)) s in
  decode_starts (trace (tick p) s1) = [selectedCamera s]
  /\ selectedCamera (exec (tick p) s1) = x
  /\ readerRef (exec (tick p) s1) = Some (mkReader (Some (selectedCamera s)))
  /\ isScanning (exec (tick p) s1) = true.
Proof.
  intros Hr Hsel Hx Htm Hok s1.
  assert (Hen : must_enumerate (render_of s) = false)
    by (apply selected_or_listed_scans; now left).
  apply truthy_nonempty in Hx.
  pose proof (changeCamera_exec x s) as Hs1. fold s1 in Hs1.
  assert (Hr1 : exists rd1, readerRef (with_timers [] s1) = Some rd1).
  { rewrite Hs1. simpl.
    destruct (isScanning s); [rewrite stopScanning_exec; simpl|];
      rewrite Hr; simpl; eauto. }
  destruct Hr1 as [rd1 Hr1].
  assert (Htick : tick p s1 = startScanning (render_of s) p (with_timers [] s1)).
  { rewrite Hs1.
    unfold tick, bind, get, modify, fireTimer; simpl. rewrite Htm; simpl.
    rewrite Hx.
    destruct (startScanning (render_of s) p _) as [[u s'] l]. reflexivity. }
  destruct (startScanning_scan_outcome (render_of s) p (with_timers [] s1) rd1
              Hr1 Hen) as [He [Hd _]].
  unfold exec, trace in He, Hd |- *. rewrite Htick, He, Hd, Hok.
  rewrite Hs1. repeat split.
Qed.

Lemma scheduled_restart_uses_previous_camera_witness :
  decode_starts
    (trace (tick (platform_with front_and_back))
       (exec (perform (SelectDevice "a")) session_ready)) = ["b"]
  /\ selectedCamera
       (exec (tick (platform_with front_and_back))
          (exec (perform (SelectDevice "a")) session_ready)) = "a".
Proof.
  assert (Hsel : selectedCamera session_ready <> "") by discriminate.
  assert (Hx : "a" <> "") by discriminate.
  destruct (scheduled_restart_uses_previous_camera
              (platform_with front_and_back) session_ready (mkReader None) "a"
              eq_refl Hsel Hx eq_refl eq_refl) as [Hd [Hs _]].
  split; [exact Hd | exact Hs].
Defined.

(** X11. Selecting the empty id clears the selection for good: any scan is
    stopped, and the restart it schedules does nothing when it fires. *)
Theorem selecting_nothing_does_not_restart (p : Platform) (s : Session) :
  timers s = [] ->
  let s1 := exec (perform (SelectDevice "")) s in
  trace (tick p) s1 = []
  /\ exec (tick p) s1
     = with_selectedCamera "" (if isScanning s then exec stopScanning s else s)
  /\ isScanning (exec (tick p) s1) = false.
Proof.
  intros Htm s1. unfold s1. rewrite changeCamera_exec.
  destruct s as [[|] cs sel err [rd|] [h|] v lv nx tm]; simpl in Htm; subst;
    repeat split.
Qed.

Lemma selecting_nothing_does_not_restart_witness :
  isScanning (exec (tick (platform_with front_and_back))
                (exec (perform (SelectDevice "")) session_scanning)) = false.
Proof.
  exact (proj2 (proj2 (selecting_nothing_does_not_restart
                         (platform_with front_and_back) session_scanning
                         eq_refl))).
Defined.

(** ** Sequencing *)

Lemma exec_seq {A B : Type} (m : M A) (k : M B) (s : Session) :
  exec (m ;; k) s = exec k (exec m s).
Proof.
  unfold exec, bind. destruct (m s) as [[a s1] l1]; simpl.
  destruct (k s1) as [[b s2] l2]; reflexivity.
Qed.

Lemma trace_seq {A B : Type} (m : M A) (k : M B) (s : Session) :
  trace (m ;; k) s = trace m s ++ trace k (exec m s).
Proof.
  unfold exec, trace, bind. destruct (m s) as [[a s1] l1]; simpl.
  destruct (k s1) as [[b s2] l2]; reflexivity.
Qed.

Lemma decode_starts_app (l1 l2 : list Event) :
  decode_starts (l1 ++ l2) = decode_starts l1 ++ decode_starts l2.
Proof.
  induction l1 as [|e l1 IH]; simpl; [reflexivity|].
  destruct e; simpl; rewrite ?IH; reflexivity.
Qed.

(** ** Accepted decodes *)

Lemma handleDetection_accepted_run (text : string) (st : Session) :
  isbnRegex_test text = true ->
  exec (handleDetection text) st = exec stopScanning st
  /\ trace (handleDetection text) st
     = ToastSuccess (String.append "ISBN detected: " text)
         :: OnDetected text :: trace stopScanning st.
Proof.
  intros Hacc. unfold handleDetection. rewrite Hacc.
  unfold exec, trace, bind, emit; simpl.
  destruct (stopScanning st) as [[u s'] l]. split; reflexivity.
Qed.

(** X13. An accepted decode ends the scan: the text is announced and handed
    to the consumer first, then the session is stopped exactly as
    [stopScanning] stops it. *)
Theorem accepted_decode_stops_the_scan (text : string) (st : Session) :
  ten_or_thirteen_digits text ->
  exec (onDecode (Some text)) st = exec stopScanning st
  /\ trace (onDecode (Some text)) st
     = ToastSuccess (String.append "ISBN detected: " text)
         :: OnDetected text :: trace stopScanning st
  /\ isScanning (exec (onDecode (Some text)) st) = false.
Proof.
  intros Hd. apply isbnRegex_test_spec in Hd.
  destruct (handleDetection_accepted_run text st Hd) as [He Ht].
  simpl onDecode. rewrite He, Ht. repeat split.
  now rewrite stopScanning_exec.
Qed.

Lemma accepted_decode_stops_the_scan_witness :
  live (exec (onDecode (Some "0306406152")) session_scanning) = []
  /\ isScanning (exec (onDecode (Some "0306406152")) session_scanning) = false.
Proof.
  assert (Hd : ten_or_thirteen_digits "0306406152")
    by (split; [left; reflexivity | repeat constructor]).
  destruct (accepted_decode_stops_the_scan "0306406152" session_scanning Hd)
    as [He [_ Hs]].
  split; [rewrite He; reflexivity | exact Hs].
Defined.

(** ** An invariant of the session *)

Lemma last_engine_call_app (l1 l2 : list Event) (b : option Event) :
  last_engine_call (l1 ++ l2) b = last_engine_call l2 (last_engine_call l1 b).
Proof.
  revert b. induction l1 as [|e l1 IH]; intros b; simpl; [reflexivity|].
  destruct e; apply IH.
Qed.

Lemma getCameras_calls_no_engine (r : Render) (p : Platform) (s : Session)
    (b : option Event) :
  last_engine_call (trace (getCameras r p) s) b = b.
Proof.
  destruct (grantsCamera p) eqn:Hg.
  - destruct (readerRef s) as [rd|] eqn:Hr.
    + destruct (videoInputs p) as [devices|] eqn:Hl.
      * destruct (getCameras_listed r p s rd devices Hg Hr Hl)
          as [_ [tail [Ht Htail]]].
        rewrite Ht. destruct Htail as [-> | [id ->]]; reflexivity.
      * unfold trace. rewrite (getCameras_list_fails r p s rd Hg Hr Hl).
        reflexivity.
    + unfold trace. rewrite (getCameras_no_reader r p s Hg Hr). reflexivity.
  - unfold trace. rewrite (getCameras_denied r p s Hg). reflexivity.
Qed.

Lemma getCameras_keeps_engine_bound (r : Render) (p : Platform) (s : Session) :
  engine_bound (exec (getCameras r p) s) = engine_bound s.
Proof.
  unfold engine_bound.
  now rewrite (proj1 (proj2 (getCameras_frame r p s))).
Qed.

Lemma stopScanning_in_step (s : Session) (b : option Event) :
  engine_in_step (exec stopScanning s)
    (last_engine_call (trace stopScanning s) b).
Proof.
  rewrite stopScanning_exec. unfold engine_in_step, engine_bound; simpl. split.
  - intros id H. destruct (readerRef s); discriminate H.
  - intros H. discriminate H.
Qed.

Lemma startScanning_scan_calls (r : Render) (p : Platform) (s : Session)
    (rd : Reader) (b : option Event) :
  readerRef s = Some rd -> must_enumerate r = false ->
  last_engine_call (trace (startScanning r p) s) b
  = Some (DecodeFromVideoDevice (r_selectedCamera r)).
Proof.
  intros Hr Hen. unfold trace.
  rewrite (startScanning_scans r p s rd Hr Hen).
  destruct s as [sc cs sel err rf h v lv nx tm]; simpl in Hr; subst.
  destruct p as [g l [|]], r as [[|] rc rs], h as [h|]; reflexivity.
Qed.

Lemma startScanning_in_step (r : Render) (p : Platform) (s : Session)
    (b : option Event) :
  engine_in_step s b ->
  engine_in_step (exec (startScanning r p) s)
    (last_engine_call (trace (startScanning r p) s) b).
Proof.
  intros [Hb Hsc]. destruct (readerRef s) as [rd|] eqn:Hr.
  - destruct (must_enumerate r) eqn:Hen.
    + destruct (startScanning_enumerates r p s rd Hr Hen) as [He Ht].
      rewrite He, Ht. simpl. rewrite getCameras_calls_no_engine.
      unfold engine_in_step. rewrite getCameras_keeps_engine_bound.
      rewrite (proj1 (getCameras_frame r p s)). split; assumption.
    + rewrite (startScanning_scan_calls r p s rd b Hr Hen).
      destruct (startScanning_scan_outcome r p s rd Hr Hen) as [He _].
      rewrite He. unfold engine_in_step, engine_bound.
      destruct (decodeThrows p); simpl; split.
      * intros id H. discriminate H.
      * intros H. discriminate H.
      * intros id H. injection H as <-. reflexivity.
      * intros _. eauto.
  - unfold exec, trace. rewrite (startScanning_no_reader r p s Hr). simpl.
    unfold engine_in_step, engine_bound in *. simpl. rewrite Hr in *.
    split; assumption.
Qed.

Lemma with_timers_in_step (l : list Timer) (s : Session) (b : option Event) :
  engine_in_step s b -> engine_in_step (with_timers l s) b.
Proof. intros H. exact H. Qed.

Lemma tick_trace (p : Platform) (s : Session) :
  trace (tick p) s =
  match timers s with
  | RestartScan r x :: rest =>
      if Js.truthy x
      then trace (startScanning r p) (with_timers rest s)
      else []
  | _ => []
  end.
Proof.
  destruct s as [sc cs sel err rf h v lv nx [|[|r x] rest]].
  - reflexivity.
  - destruct v; reflexivity.
  - unfold trace, tick, bind, get, modify, fireTimer; simpl.
    destruct (Js.truthy x); [|reflexivity].
    destruct (startScanning r p _) as [[u s'] l]. reflexivity.
Qed.

Lemma happen_in_step (h : Happening) (s : Session) (b : option Event) :
  engine_in_step s b ->
  engine_in_step (exec (happen h) s)
    (last_engine_call (trace (happen h) s) b).
Proof.
  intros Hin. destruct h as [[p | x | p |] | p | [text|]].
  - change (happen (Public (EnumerateDevices p)) s)
      with (getCameras (render_of s) p s).
    change (exec (happen (Public (EnumerateDevices p))) s)
      with (exec (getCameras (render_of s) p) s).
    change (trace (happen (Public (EnumerateDevices p))) s)
      with (trace (getCameras (render_of s) p) s).
    rewrite getCameras_calls_no_engine.
    unfold engine_in_step. rewrite getCameras_keeps_engine_bound.
    rewrite (proj1 (getCameras_frame (render_of s) p s)). exact Hin.
  - change (exec (happen (Public (SelectDevice x))) s)
      with (exec (perform (SelectDevice x)) s).
    change (trace (happen (Public (SelectDevice x))) s)
      with (trace (perform (SelectDevice x)) s).
    rewrite changeCamera_exec, changeCamera_trace, last_engine_call_app.
    destruct (isScanning s) eqn:Hsc.
    + simpl last_engine_call at 1.
      exact (stopScanning_in_step s b).
    + destruct Hin as [Hb _]. split.
      * exact Hb.
      * intros H. simpl in H. congruence.
  - now apply startScanning_in_step.
  - exact (stopScanning_in_step s b).
  - change (exec (happen (TimerFires p)) s) with (exec (tick p) s).
    change (trace (happen (TimerFires p)) s) with (trace (tick p) s).
    rewrite tick_exec, tick_trace. destruct (timers s) as [|[|r x] rest].
    + exact Hin.
    + destruct (videoSrc s); exact Hin.
    + destruct (Js.truthy x); [|exact Hin].
      apply startScanning_in_step. exact Hin.
  - change (exec (happen (Decoded (Some text))) s)
      with (exec (handleDetection text) s).
    change (trace (happen (Decoded (Some text))) s)
      with (trace (handleDetection text) s).
    destruct (isbnRegex_test text) eqn:Hacc.
    + destruct (handleDetection_accepted_run text s Hacc) as [He Ht].
      rewrite He, Ht. exact (stopScanning_in_step s b).
    + unfold exec, trace, handleDetection. rewrite Hacc. exact Hin.
  - exact Hin.
Qed.



(** ** The visibility effect of the component *)

Lemma effectRound_unknown (p : Platform) (s : Session) :
  cameras s = [] ->
  exec (effectRound true p) s
    = exec (getCameras (render_of s) p) (exec stopScanning s).
Proof.
  intros Hcs. rewrite <- exec_seq. unfold exec, effectRound, visibilityEffect.
  change (r_cameras (render_of s)) with (cameras s). now rewrite Hcs.
Qed.

Lemma effectRound_known (p : Platform) (s : Session) :
  cameras s <> [] ->
  exec (effectRound true p) s
    = exec (startScanning (render_of s) p) (exec stopScanning s)
  /\ trace (effectRound true p) s
     = trace stopScanning s
       ++ trace (startScanning (render_of s) p) (exec stopScanning s).
Proof.
  intros Hcs. rewrite <- exec_seq, <- trace_seq.
  unfold exec, trace, effectRound, visibilityEffect.
  change (r_cameras (render_of s)) with (cameras s).
  destruct (cameras s); [contradiction | split; reflexivity].
Qed.

(** X14. Opening the scanner on a session that knows no device takes two
    effect rounds: the first enumerates and auto-selects, the second starts
    the decode loop on the auto-selected camera and leaves the session
    scanning. *)
Theorem opening_the_scanner_ends_scanning (p1 p2 : Platform) (s : Session)
    (rd : Reader) (first : MediaDeviceInfo) (rest : list MediaDeviceInfo) :
  readerRef s = Some rd -> cameras s = [] -> selectedCamera s = "" ->
  grantsCamera p1 = true -> videoInputs p1 = Some (first :: rest) ->
  decodeThrows p2 = false ->
  let s1 := exec (effectRound true p1) s in
  let s2 := exec (effectRound true p2) s1 in
  isScanning s1 = false
  /\ cameras s1 = first :: rest
  /\ selectedCamera s1 = cameraToUse first (first :: rest)
  /\ isScanning s2 = true
  /\ readerRef s2 = Some (mkReader (Some (cameraToUse first (first :: rest))))
  /\ selectedCamera s2 = cameraToUse first (first :: rest)
  /\ error s2 = "".
Proof.
  intros Hr Hcs Hsel Hg Hl Hok s1 s2.
  assert (H1 : s1 = with_selectedCamera (cameraToUse first (first :: rest))
                      (with_cameras (first :: rest)
                         (after_permission (exec stopScanning s)))).
  { unfold s1. rewrite (effectRound_unknown p1 s Hcs).
    assert (Hr' : readerRef (exec stopScanning s) = Some (mkReader None))
      by (rewrite stopScanning_exec; simpl; now rewrite Hr).
    destruct (getCameras_listed (render_of s) p1 (exec stopScanning s)
                (mkReader None) (first :: rest) Hg Hr' Hl) as [He _].
    rewrite He. unfold selection_after, render_of; simpl. rewrite Hsel.
    reflexivity. }
  assert (Hc1 : cameras s1 = first :: rest) by now rewrite H1.
  assert (Hne : cameras s1 <> []) by (rewrite Hc1; discriminate).
  assert (H2 : s2 = scan_started (render_of s1) (exec stopScanning s1)).
  { unfold s2. rewrite (proj1 (effectRound_known p2 s1 Hne)).
    assert (Hr' : readerRef (exec stopScanning s1) = Some (mkReader None)).
    { rewrite stopScanning_exec, H1; simpl.
      rewrite stopScanning_exec; simpl. now rewrite Hr. }
    destruct (startScanning_scan_outcome (render_of s1) p2
                (exec stopScanning s1) (mkReader None) Hr'
                (selected_or_listed_scans s1 (or_intror Hne))) as [He _].
    now rewrite He, Hok. }
  rewrite H2. unfold scan_started, render_of; simpl.
  rewrite stopScanning_exec. rewrite H1; simpl.
  rewrite stopScanning_exec; simpl. repeat split.
Qed.

Lemma opening_the_scanner_ends_scanning_witness :
  isScanning (exec (effectRound true (platform_with front_and_back))
                (exec (effectRound true (platform_with front_and_back)) mounted))
    = true
  /\ readerRef (exec (effectRound true (platform_with front_and_back))
                  (exec (effectRound true (platform_with front_and_back)) mounted))
     = Some (mkReader (Some "b")).
Proof.
  destruct (opening_the_scanner_ends_scanning
              (platform_with front_and_back) (platform_with front_and_back)
              mounted (mkReader None)
              (mkDevice "a" "Front") [mkDevice "b" "Back Camera"]
              eq_refl eq_refl eq_refl eq_refl eq_refl eq_refl)
    as [_ [_ [_ [Hs [Hr _]]]]].
  split; [exact Hs | exact Hr].
Defined.

(** X15. While the scanner is visible and devices are known, every effect
    round restarts the decode loop on the selected camera, whether or not a
    scan was running, and leaves the session scanning; a round with the
    scanner hidden is one [stopScanning]. *)
Theorem visible_round_restarts_the_decode (p : Platform) (s : Session)
    (rd : Reader) :
  readerRef s = Some rd -> cameras s <> [] -> decodeThrows p = false ->
  decode_starts (trace (effectRound true p) s) = [selectedCamera s]
  /\ isScanning (exec (effectRound true p) s) = true
  /\ exec (effectRound false p) s = exec stopScanning s.
Proof.
  intros Hr Hcs Hok.
  assert (Hr' : readerRef (exec stopScanning s) = Some (mkReader None))
    by (rewrite stopScanning_exec; simpl; now rewrite Hr).
  destruct (startScanning_scan_outcome (render_of s) p (exec stopScanning s)
              (mkReader None) Hr'
              (selected_or_listed_scans s (or_intror Hcs))) as [He [Hd _]].
  destruct (effectRound_known p s Hcs) as [Hx Ht].
  split; [|split].
  - rewrite Ht, decode_starts_app, Hd, stopScanning_trace.
    destruct (streamRef s), (readerRef s); reflexivity.
  - rewrite Hx, He, Hok. reflexivity.
  - change (exec (effectRound false p) s)
      with (exec (stopScanning ;; stopScanning) s).
    rewrite exec_seq, !stopScanning_exec. simpl.
    destruct (readerRef s); reflexivity.
Qed.

Lemma visible_round_restarts_the_decode_witness :
  decode_starts (trace (effectRound true (platform_with front_and_back))
                   session_scanning) = ["b"]
  /\ isScanning (exec (effectRound true (platform_with front_and_back))
                   session_scanning) = true.
Proof.
  assert (Hcs : cameras session_scanning <> []) by discriminate.
  destruct (visible_round_restarts_the_decode (platform_with front_and_back)
              session_scanning (mkReader (Some "b")) eq_refl Hcs eq_refl)
    as [Hd [Hs _]].
  split; [exact Hd | exact Hs].
Defined.

(** ** The camera selector *)

Lemma substring_0_4_short (s : string) :
  String.length (String.substring 0 4 s) <= 4.
Proof.
  destruct s as [|a [|b [|c [|d s]]]]; simpl; try lia.
  destruct s; simpl; lia.
Qed.

(** X16. Every camera gets a name in the selector: its label when it has
    one, and otherwise "Camera " followed by at most the first four
    characters of its id; the name is never empty. *)
Theorem camera_display_name_never_empty (camera : MediaDeviceInfo) :
  cameraDisplayName camera <> ""
  /\ (label camera <> "" -> cameraDisplayName camera = label camera)
  /\ (label camera = "" ->
      cameraDisplayName camera
        = String.append "Camera " (String.substring 0 4 (deviceId camera))
      /\ 7 <= String.length (cameraDisplayName camera) <= 11).
Proof.
  unfold cameraDisplayName.
  destruct (Js.truthy (label camera)) eqn:Ht.
  - apply truthy_nonempty in Ht. repeat split; auto; contradiction.
  - assert (Hl : label camera = "").
    { destruct (String.eqb_spec (label camera) "") as [H|H]; [exact H|].
      apply truthy_nonempty in H. congruence. }
    pose proof (substring_0_4_short (deviceId camera)) as Hs.
    repeat split; simpl; try discriminate; try lia.
    intros Hne; contradiction.
Qed.

Lemma camera_display_name_never_empty_witness :
  cameraDisplayName (mkDevice "b" "Back Camera") = "Back Camera"
  /\ cameraDisplayName (mkDevice "0123456789abcdef" "") = "Camera 0123".
Proof.
  split.
  - apply (camera_display_name_never_empty (mkDevice "b" "Back Camera")).
    discriminate.
  - apply (camera_display_name_never_empty (mkDevice "0123456789abcdef" "")).
    reflexivity.
Defined.

(** * Properties of the page that consumes the scanner *)

Section AddBookFacts.

Import AddBook.

Variable parseInt : string -> JsNumber.

Lemma truthy_false_empty (x : string) : Js.truthy x = false <-> x = "".
Proof.
  unfold Js.truthy. destruct (String.eqb_spec x ""); simpl; split; congruence.
Qed.

Lemma required_fields_present (f : BookFormData) :
  f_title f <> "" -> f_author f <> "" -> f_isbn f <> "" ->
  negb (Js.truthy (f_title f)) || negb (Js.truthy (f_author f))
  || negb (Js.truthy (f_isbn f)) = false.
Proof.
  intros Ht Ha Hi. apply truthy_nonempty in Ht, Ha, Hi.
  now rewrite Ht, Ha, Hi.
Qed.

Lemma replaceFirst_found (test : Book -> bool) (g : Book -> Book)
    (pre : list Book) (old : Book) (post : list Book) :
  (forall b, In b pre -> test b = false) -> test old = true ->
  replaceFirst test g (pre ++ old :: post) = Some (pre ++ g old :: post).
Proof.
  induction pre as [|b pre IH]; intros Hpre Hold; simpl.
  - now rewrite Hold.
  - rewrite (Hpre b (or_introl eq_refl)), IH; auto.
    intros b' Hb'. apply Hpre. now right.
Qed.

Lemma replaceFirst_missing (test : Book -> bool) (g : Book -> Book)
    (books : list Book) :
  (forall b, In b books -> test b = false) -> replaceFirst test g books = None.
Proof.
  induction books as [|b rest IH]; intros H; simpl; [reflexivity|].
  rewrite (H b (or_introl eq_refl)), IH; auto.
  intros b' Hb'. apply H. now right.
Qed.

Lemma replaceFirst_keeps_ids (test : Book -> bool) (g : Book -> Book)
    (books books' : list Book) :
  (forall b, b_id (g b) = b_id b) ->
  replaceFirst test g books = Some books' ->
  map b_id books' = map b_id books.
Proof.
  intros Hg. revert books'. induction books as [|b rest IH]; intros books' H;
    simpl in H; [discriminate|].
  destruct (test b).
  - injection H as <-. simpl. now rewrite Hg.
  - destruct (replaceFirst test g rest) as [rest'|]; [|discriminate].
    injection H as <-. simpl. now rewrite (IH rest' eq_refl).
Qed.

Lemma hasId_true (i : string) (b : Book) : hasId (Some i) b = true <-> b_id b = i.
Proof. simpl. apply String.eqb_eq. Qed.

Lemma hasId_false (i : string) (b : Book) : hasId (Some i) b = false <-> b_id b <> i.
Proof. simpl. apply String.eqb_neq. Qed.

Lemma jsAdd_exact (a b : Z) :
  safeInteger a = true -> safeInteger b = true -> safeInteger (a + b) = true ->
  jsAdd a b = Some (a + b)%Z.
Proof. intros Ha Hb Hs. unfold jsAdd. now rewrite Ha, Hb, Hs. Qed.

Lemma safeInteger_spec (z : Z) :
  safeInteger z = true <-> (- (2 ^ 53 - 1) <= z <= 2 ^ 53 - 1)%Z.
Proof.
  unfold safeInteger. rewrite andb_true_iff, !Z.leb_le. tauto.
Qed.

(** X17. On the integers JavaScript adds exactly, the quantity buttons
    never take the quantity below 1: for a safe quantity, a safe amount and
    a safe sum the handler stores the sum when it is at least 1 and 1
    otherwise and changes nothing else; so minus at 1 or below gives 1, and
    plus followed by minus gives back a quantity between 1 and 2^53 - 2. *)
Theorem quantity_buttons_stay_positive (amount : Z) (pg : Page) :
  safeInteger (f_quantity (formData pg)) = true ->
  safeInteger amount = true ->
  safeInteger (f_quantity (formData pg) + amount) = true ->
  handleQuantityChange amount pg
  = Some (with_formData
            (with_quantity (Z.max 1 (f_quantity (formData pg) + amount))
               (formData pg)) pg, [])
  /\ (forall pg', handleQuantityChange amount pg = Some (pg', []) ->
      (1 <= f_quantity (formData pg'))%Z
      /\ ((1 <= f_quantity (formData pg) + amount)%Z ->
          f_quantity (formData pg') = (f_quantity (formData pg) + amount)%Z)
      /\ ((f_quantity (formData pg) <= 1)%Z -> amount = (-1)%Z ->
          f_quantity (formData pg') = 1%Z)
      /\ mockBooks pg' = mockBooks pg
      /\ with_quantity (f_quantity (formData pg)) (formData pg') = formData pg)
  /\ ((1 <= f_quantity (formData pg) <= 2 ^ 53 - 2)%Z ->
      exists up down,
        handleQuantityChange 1 pg = Some (up, [])
        /\ handleQuantityChange (-1) up = Some (down, [])
        /\ f_quantity (formData down) = f_quantity (formData pg)).
Proof.
  intros Hq Ha Hs.
  assert (Hrun : handleQuantityChange amount pg
                 = Some (with_formData
                           (with_quantity
                              (Z.max 1 (f_quantity (formData pg) + amount))
                              (formData pg)) pg, [])).
  { unfold handleQuantityChange. now rewrite (jsAdd_exact _ _ Hq Ha Hs). }
  split; [exact Hrun|]. split.
  - intros pg' Hpg'. rewrite Hrun in Hpg'. injection Hpg' as <-. simpl.
    repeat split; try lia.
    destruct (formData pg); reflexivity.
  - intros Hrange.
    assert (Hup : handleQuantityChange 1 pg
                  = Some (with_formData
                            (with_quantity (Z.max 1 (f_quantity (formData pg) + 1))
                               (formData pg)) pg, [])).
    { unfold handleQuantityChange. rewrite jsAdd_exact; [reflexivity| | |];
        apply safeInteger_spec; lia. }
    eexists. eexists. split; [exact Hup|]. split.
    + unfold handleQuantityChange. simpl. rewrite jsAdd_exact;
        [reflexivity| | |]; apply safeInteger_spec; lia.
    + simpl. lia.
Qed.

Lemma quantity_buttons_stay_positive_witness :
  handleQuantityChange (-1) sample_page
  = Some (with_formData (with_quantity 1 (formData sample_page)) sample_page, [])
  /\ exists up down,
       handleQuantityChange 1 sample_page = Some (up, [])
       /\ handleQuantityChange (-1) up = Some (down, [])
       /\ f_quantity (formData down) = 1%Z.
Proof.
  destruct (quantity_buttons_stay_positive (-1) sample_page
              eq_refl eq_refl eq_refl) as [Hrun [_ Hround]].
  split; [exact Hrun|].
  apply Hround. simpl. lia.
Defined.

(** X18. A submit with an empty title, author or ISBN changes nothing: the
    page and the catalog are as before and the only effect is the
    "Please fill in all required fields" toast. *)
Theorem submit_rejects_incomplete_form (f : BookFormData) (id : option string)
    (now : string) (pg : Page) :
  f_title f = "" \/ f_author f = "" \/ f_isbn f = "" ->
  handleSubmit parseInt f id now pg
  = (pg, [ToastErr "Please fill in all required fields"]).
Proof.
  intros H. unfold handleSubmit, handleSubmitAt.
  assert (Hreq : negb (Js.truthy (f_title f)) || negb (Js.truthy (f_author f))
                 || negb (Js.truthy (f_isbn f)) = true).
  { destruct H as [H|[H|H]]; apply truthy_false_empty in H; rewrite H; simpl;
      rewrite ?orb_true_r; reflexivity. }
  now rewrite Hreq.
Qed.

(** X19. A valid submit outside edit mode appends exactly one book: the
    books already there keep their places; the new one carries the form's
    fields, the decimal of the new length as id, the whole quantity as
    available, the first reading of the clock as creation date and the
    second as update date; [submitting] ends false, the form is unchanged
    and the return to the catalog is scheduled. *)
Theorem submit_appends_one_book (f : BookFormData) (id : option string)
    (first second : string) (pg : Page) :
  f_title f <> "" -> f_author f <> "" -> f_isbn f <> "" ->
  isEditMode id = false ->
  let pg' := fst (handleSubmitAt parseInt f id first second pg) in
  exists b,
    mockBooks pg' = mockBooks pg ++ [b]
    /\ b_id b = natToString (List.length (mockBooks pg) + 1)
    /\ b_title b = f_title f /\ b_author b = f_author f /\ b_isbn b = f_isbn f
    /\ b_publisher b = Some (f_publisher f)
    /\ b_publishedYear b = yearOfForm parseInt f
    /\ b_description b = Some (f_description f)
    /\ b_cover b = Some (f_cover f)
    /\ b_quantity b = f_quantity f /\ b_availableQuantity b = f_quantity f
    /\ b_createdAt b = first /\ b_updatedAt b = second
    /\ submitting pg' = false /\ formData pg' = formData pg
    /\ snd (handleSubmitAt parseInt f id first second pg)
       = [ToastOk (bookMessage (f_title f) "added"); NavigateLater "/catalog"].
Proof.
  intros Ht Ha Hi Hmode. unfold handleSubmitAt.
  rewrite (required_fields_present f Ht Ha Hi), Hmode. simpl.
  eexists. repeat split.
Qed.

(** X20. A valid submit in edit mode rewrites the first book with the
    route's id and nothing else: that book keeps its id, its available
    quantity, its creation date and its other fields, takes every value of
    the form (title, author, ISBN, publisher, year, description, cover,
    quantity) and the reading of the clock as update date; when no book has
    the id the catalog is untouched and no success is announced, yet the
    return to the catalog is still scheduled. *)
Theorem submit_edits_the_first_match (f : BookFormData) (i : string)
    (first second : string) (pg : Page) :
  f_title f <> "" -> f_author f <> "" -> f_isbn f <> "" -> i <> "" ->
  (forall pre old post,
      mockBooks pg = pre ++ old :: post ->
      (forall b, In b pre -> b_id b <> i) -> b_id old = i ->
      exists b,
        handleSubmitAt parseInt f (Some i) first second pg
        = (with_submitting false
             (with_mockBooks (pre ++ b :: post) (with_submitting true pg)),
           [ToastOk (bookMessage (f_title f) "updated");
            NavigateLater "/catalog"])
        /\ b_id b = i
        /\ b_title b = f_title f /\ b_author b = f_author f
        /\ b_isbn b = f_isbn f
        /\ b_publisher b = Some (f_publisher f)
        /\ b_publishedYear b = yearOfForm parseInt f
        /\ b_description b = Some (f_description f)
        /\ b_cover b = Some (f_cover f)
        /\ b_quantity b = f_quantity f
        /\ b_availableQuantity b = b_availableQuantity old
        /\ b_createdAt b = b_createdAt old /\ b_others b = b_others old
        /\ b_updatedAt b = first)
  /\ ((forall b, In b (mockBooks pg) -> b_id b <> i) ->
      handleSubmitAt parseInt f (Some i) first second pg
      = (with_submitting false (with_submitting true pg),
         [NavigateLater "/catalog"])).
Proof.
  intros Ht Ha Hi Hid. apply truthy_nonempty in Hid.
  unfold handleSubmitAt. rewrite (required_fields_present f Ht Ha Hi).
  simpl isEditMode. rewrite Hid. simpl. split.
  - intros pre old post Heq Hpre Hold. rewrite Heq.
    rewrite (replaceFirst_found (hasId (Some i)) _ pre old post).
    + eexists. split; [reflexivity|]. simpl. repeat split. exact Hold.
    + intros b Hb. apply hasId_false. now apply Hpre.
    + now apply hasId_true.
  - intros Hnone.
    rewrite (replaceFirst_missing (hasId (Some i)) _ (mockBooks pg)).
    + reflexivity.
    + intros b Hb. apply hasId_false. now apply Hnone.
Qed.

End AddBookFacts.

(** ** Witnesses for the submit handler *)

Lemma submit_rejects_incomplete_form_witness :
  AddBook.handleSubmit parse_nothing AddBook.emptyForm None "2024-05-01"
    sample_page
  = (sample_page, [AddBook.ToastErr "Please fill in all required fields"]).
Proof.
  apply (submit_rejects_incomplete_form parse_nothing AddBook.emptyForm None
           "2024-05-01" sample_page).
  left. reflexivity.
Defined.

Lemma submit_appends_one_book_witness :
  exists b,
    AddBook.mockBooks
      (fst (AddBook.handleSubmitAt parse_nothing sample_form None
              "2024-05-01T10:00:00.000Z" "2024-05-01T10:00:00.001Z"
              sample_page)) = sample_catalog ++ [b]
    /\ AddBook.b_id b = "3"
    /\ AddBook.b_createdAt b = "2024-05-01T10:00:00.000Z"
    /\ AddBook.b_updatedAt b = "2024-05-01T10:00:00.001Z".
Proof.
  assert (Ht : AddBook.f_title sample_form <> "") by discriminate.
  assert (Ha : AddBook.f_author sample_form <> "") by discriminate.
  assert (Hi : AddBook.f_isbn sample_form <> "") by discriminate.
  destruct (submit_appends_one_book parse_nothing sample_form None
              "2024-05-01T10:00:00.000Z" "2024-05-01T10:00:00.001Z"
              sample_page Ht Ha Hi eq_refl)
    as [b [Hb [Hid [_ [_ [_ [_ [_ [_ [_ [_ [_ [Hc [Hu _]]]]]]]]]]]]]].
  exists b. repeat split; assumption.
Defined.

Lemma submit_edits_the_first_match_witness :
  exists b,
    AddBook.mockBooks
      (fst (AddBook.handleSubmitAt parse_nothing sample_form (Some "2")
              "2024-05-01" "2024-05-02" sample_page))
    = [sample_book "1" "Dune"; b]
    /\ AddBook.b_title b = "Ulysses" /\ AddBook.b_author b = "James Joyce"
    /\ AddBook.b_isbn b = "9780199535675"
    /\ AddBook.b_availableQuantity b = 1%Z
    /\ AddBook.b_updatedAt b = "2024-05-01".
Proof.
  assert (Ht : AddBook.f_title sample_form <> "") by discriminate.
  assert (Ha : AddBook.f_author sample_form <> "") by discriminate.
  assert (Hi : AddBook.f_isbn sample_form <> "") by discriminate.
  assert (Hid : "2" <> "") by discriminate.
  destruct (submit_edits_the_first_match parse_nothing sample_form "2"
              "2024-05-01" "2024-05-02" sample_page Ht Ha Hi Hid)
    as [Hfound _].
  destruct (Hfound [sample_book "1" "Dune"] (sample_book "2" "Emma") [])
    as [b [Hrun [_ [Htitle [Hauthor [Hisbn [_ [_ [_ [_ [_ [Hav [_ [_ Hup]]]]]]]]]]]]]].
  - reflexivity.
  - intros b [<-|[]]. discriminate.
  - reflexivity.
  - exists b. rewrite Hrun. repeat split; assumption.
Defined.

(** ** Ids of the catalog *)

Lemma natToString_injective (n m : nat) :
  AddBook.natToString n = AddBook.natToString m -> n = m.
Proof.
  unfold AddBook.natToString. intros H.
  apply Unsigned.to_uint_inj.
  assert (Hs : Some (Nat.to_uint n) = Some (Nat.to_uint m)).
  { rewrite <- (NilEmpty.usu (Nat.to_uint n)), <- (NilEmpty.usu (Nat.to_uint m)).
    now rewrite H. }
  now injection Hs.
Qed.

Lemma NoDup_map_injective {A B : Type} (g : A -> B) (l : list A) :
  (forall x y, g x = g y -> x = y) -> NoDup l -> NoDup (map g l).
Proof.
  intros Hinj Hl. induction Hl as [|x l Hx Hl IH]; simpl; constructor; auto.
  intros Hin. apply in_map_iff in Hin. destruct Hin as [y [Hy Hin]].
  apply Hinj in Hy. subst y. contradiction.
Qed.

Lemma sequential_ids_distinct (books : list AddBook.Book) :
  sequential_ids books -> NoDup (map AddBook.b_id books).
Proof.
  unfold sequential_ids. intros ->.
  apply NoDup_map_injective.
  - apply natToString_injective.
  - apply seq_NoDup.
Qed.

(** X21. A catalog numbered 1, 2, ..., n stays so numbered through every
    submit, valid or not, adding or editing; in particular the id given to
    an added book is new and the ids stay pairwise distinct. *)
Theorem submit_keeps_ids_sequential (parseInt : string -> AddBook.JsNumber)
    (f : AddBook.BookFormData) (id : option string) (now : string)
    (pg : AddBook.Page) :
  sequential_ids (AddBook.mockBooks pg) ->
  sequential_ids
    (AddBook.mockBooks (fst (AddBook.handleSubmit parseInt f id now pg)))
  /\ NoDup (map AddBook.b_id
              (AddBook.mockBooks
                 (fst (AddBook.handleSubmit parseInt f id now pg)))).
Proof.
  intros Hseq.
  assert (Hgoal : sequential_ids
            (AddBook.mockBooks (fst (AddBook.handleSubmit parseInt f id now pg)))).
  { unfold AddBook.handleSubmit, AddBook.handleSubmitAt.
    destruct (negb (Js.truthy (AddBook.f_title f))
              || negb (Js.truthy (AddBook.f_author f))
              || negb (Js.truthy (AddBook.f_isbn f))); [exact Hseq|].
    destruct (negb (AddBook.isEditMode id)).
    - change (sequential_ids
                (AddBook.mockBooks pg
                 ++ [AddBook.newBook parseInt f now now (AddBook.mockBooks pg)])).
      unfold sequential_ids in *.
      rewrite map_app, length_app, Hseq.
      change (List.length [AddBook.newBook parseInt f now now (AddBook.mockBooks pg)])
        with 1.
      rewrite Nat.add_1_r, seq_S, map_app.
      change (map AddBook.b_id
                [AddBook.newBook parseInt f now now (AddBook.mockBooks pg)])
        with [AddBook.natToString (List.length (AddBook.mockBooks pg) + 1)].
      now rewrite Nat.add_1_r.
    - simpl.
      destruct (AddBook.replaceFirst (AddBook.hasId id)
                  (AddBook.editedBook parseInt f now) (AddBook.mockBooks pg))
        as [books|] eqn:Hrep; simpl; [|exact Hseq].
      assert (Hids : map AddBook.b_id books
                     = map AddBook.b_id (AddBook.mockBooks pg)).
      { apply (replaceFirst_keeps_ids (AddBook.hasId id)
                 (AddBook.editedBook parseInt f now)); [reflexivity | exact Hrep]. }
      unfold sequential_ids in *.
      rewrite Hids, Hseq.
      f_equal. f_equal.
      rewrite <- (length_map AddBook.b_id books), Hids, length_map.
      reflexivity. }
  split; [exact Hgoal | now apply sequential_ids_distinct].
Qed.

Lemma submit_keeps_ids_sequential_witness :
  map AddBook.b_id
    (AddBook.mockBooks
       (fst (AddBook.handleSubmit parse_nothing sample_form None "2024-05-01"
               sample_page))) = ["1"; "2"; "3"].
Proof.
  exact (proj1 (submit_keeps_ids_sequential parse_nothing sample_form None
                  "2024-05-01" sample_page eq_refl)).
Defined.

(** ** Looking an ISBN up *)

Lemma trimEnd_empty_blank (s : string) : AddBook.trimEnd s = "" -> blank s.
Proof.
  unfold blank. induction s as [|c t IH]; simpl; intros H; [constructor|].
  destruct (AddBook.trimEnd t) as [|c' t'] eqn:Ht; [|discriminate].
  destruct (AddBook.isWhitespace c) eqn:Hc; [|discriminate].
  constructor; auto.
Qed.

Lemma trimStart_blank (s : string) : blank (AddBook.trimStart s) -> blank s.
Proof.
  unfold blank. induction s as [|c t IH]; simpl; intros H; [constructor|].
  destruct (AddBook.isWhitespace c) eqn:Hc; [|exact H].
  constructor; auto.
Qed.

Lemma blank_trimStart (s : string) : blank s -> AddBook.trimStart s = "".
Proof.
  unfold blank. induction s as [|c t IH]; simpl; intros H; [reflexivity|].
  inversion H as [|? ? Hc Ht]; subst. rewrite Hc. auto.
Qed.

(** [!s.trim()] holds exactly for the texts made of white space only. *)
Lemma trim_empty_iff_blank (s : string) : AddBook.trim s = "" <-> blank s.
Proof.
  unfold AddBook.trim. split.
  - intros H. apply trimStart_blank. now apply trimEnd_empty_blank.
  - intros H. now rewrite (blank_trimStart s H).
Qed.

Lemma not_blank_lookup (s : string) :
  ~ blank s -> negb (Js.truthy (AddBook.trim s)) = false.
Proof.
  intros H. destruct (Js.truthy (AddBook.trim s)) eqn:Ht; [reflexivity|].
  exfalso. apply H. apply trim_empty_iff_blank.
  unfold Js.truthy in Ht. destruct (String.eqb_spec (AddBook.trim s) "");
    [assumption | discriminate].
Qed.

Lemma not_blank_not_empty (s : string) : ~ blank s -> s <> "".
Proof. intros H ->. apply H. constructor. Qed.

Lemma digit_is_not_whitespace (c : ascii) :
  Js.isDigit c = true -> AddBook.isWhitespace c = false.
Proof.
  destruct c as [[|] [|] [|] [|] [|] [|] [|] [|]];
    intros H; try reflexivity; discriminate H.
Qed.

Lemma isbn_digits_not_blank (s : string) : ten_or_thirteen_digits s -> ~ blank s.
Proof.
  intros [Hlen Hd] Hb. unfold all_digits, blank in *.
  destruct s as [|c t]; [destruct Hlen; discriminate|].
  simpl in *. inversion Hd as [|? ? Hc _]; inversion Hb as [|? ? Hw _]; subst.
  apply digit_is_not_whitespace in Hc. congruence.
Qed.

(** X22. A lookup of an empty or all-white-space ISBN is refused before any
    request is made: the page, its loading flag included, is unchanged and
    the only effect is the "Please enter an ISBN to search" toast. *)
Theorem blank_isbn_is_not_looked_up (quantity : Z) (answer : AddBook.Lookup)
    (isbn : string) (pg : AddBook.Page) :
  blank isbn ->
  AddBook.handleIsbnSearch quantity answer isbn pg
  = (pg, [AddBook.ToastErr "Please enter an ISBN to search"]).
Proof.
  intros Hb. unfold AddBook.handleIsbnSearch.
  apply trim_empty_iff_blank in Hb. now rewrite Hb.
Qed.

Lemma blank_isbn_is_not_looked_up_witness :
  AddBook.handleIsbnSearch 1 AddBook.NotFound "   " sample_page
  = (sample_page, [AddBook.ToastErr "Please enter an ISBN to search"]).
Proof.
  apply (blank_isbn_is_not_looked_up 1 AddBook.NotFound "   " sample_page).
  repeat constructor.
Defined.

(** X23. Any other lookup makes exactly one request and always ends with
    the loading flag down, whether a book is found, none is found or the
    request fails; the catalog and the scanner flag are untouched.  Only a
    found book changes the form: every text field takes the found value or
    the empty string, the quantity is the one the handler captured, and the
    ISBN is the found one when there is a non-empty one and the one asked
    for otherwise, so it is never empty. *)
Theorem lookup_ends_with_loading_down (quantity : Z) (answer : AddBook.Lookup)
    (isbn : string) (pg : AddBook.Page) :
  ~ blank isbn ->
  let pg' := fst (AddBook.handleIsbnSearch quantity answer isbn pg) in
  let log := snd (AddBook.handleIsbnSearch quantity answer isbn pg) in
  AddBook.isbnLoading pg' = false
  /\ AddBook.mockBooks pg' = AddBook.mockBooks pg
  /\ AddBook.showScanner pg' = AddBook.showScanner pg
  /\ AddBook.loading pg' = AddBook.loading pg
  /\ AddBook.submitting pg' = AddBook.submitting pg
  /\ (answer = AddBook.NotFound ->
      AddBook.formData pg' = AddBook.formData pg
      /\ log = [AddBook.SearchByISBN isbn;
                AddBook.ToastErr "No book found with this ISBN"])
  /\ (answer = AddBook.LookupFailed ->
      AddBook.formData pg' = AddBook.formData pg
      /\ log = [AddBook.SearchByISBN isbn;
                AddBook.LogError "Error searching ISBN:";
                AddBook.ToastErr "Error searching for book"])
  /\ (forall parsed, answer = AddBook.Found parsed ->
      log = [AddBook.SearchByISBN isbn;
             AddBook.ToastOk "Book information found!"]
      /\ AddBook.f_title (AddBook.formData pg')
         = AddBook.orEmpty (AddBook.p_title parsed)
      /\ AddBook.f_author (AddBook.formData pg')
         = AddBook.orEmpty (AddBook.p_author parsed)
      /\ AddBook.f_publisher (AddBook.formData pg')
         = AddBook.orEmpty (AddBook.p_publisher parsed)
      /\ AddBook.f_description (AddBook.formData pg')
         = AddBook.orEmpty (AddBook.p_description parsed)
      /\ AddBook.f_cover (AddBook.formData pg')
         = AddBook.orEmpty (AddBook.p_cover parsed)
      /\ AddBook.f_quantity (AddBook.formData pg') = quantity
      /\ AddBook.f_isbn (AddBook.formData pg') <> ""
      /\ (forall found, AddBook.p_isbn parsed = Some found -> found <> "" ->
          AddBook.f_isbn (AddBook.formData pg') = found)
      /\ (AddBook.p_isbn parsed = None \/ AddBook.p_isbn parsed = Some "" ->
          AddBook.f_isbn (AddBook.formData pg') = isbn)).
Proof.
  intros Hnb. pose proof (not_blank_not_empty isbn Hnb) as Hne.
  unfold AddBook.handleIsbnSearch. rewrite (not_blank_lookup isbn Hnb).
  destruct answer as [parsed| |]; simpl.
  - do 5 (split; [reflexivity|]).
    split; [intros Heq; discriminate Heq|].
    split; [intros Heq; discriminate Heq|].
    intros parsed' Heq. injection Heq as <-.
    do 7 (split; [reflexivity|]). split; [|split].
    + unfold Js.or_else.
      destruct (AddBook.p_isbn parsed) as [v|]; [|exact Hne].
      destruct (Js.truthy v) eqn:Hv; [now apply truthy_nonempty | exact Hne].
    + intros found Hp Hf. rewrite Hp. simpl.
      apply truthy_nonempty in Hf. now rewrite Hf.
    + intros [Hp | Hp]; rewrite Hp; reflexivity.
  - do 5 (split; [reflexivity|]).
    split; [intros _; split; [destruct pg; reflexivity | reflexivity]|].
    split; [intros Heq; discriminate Heq|].
    intros parsed' Heq. discriminate Heq.
  - do 5 (split; [reflexivity|]).
    split; [intros Heq; discriminate Heq|].
    split; [intros _; split; [destruct pg; reflexivity | reflexivity]|].
    intros parsed' Heq. discriminate Heq.
Qed.

Lemma lookup_ends_with_loading_down_witness :
  AddBook.isbnLoading
    (fst (AddBook.handleIsbnSearch 1 AddBook.LookupFailed "9780345391803"
            sample_page)) = false
  /\ AddBook.formData
       (fst (AddBook.handleIsbnSearch 1 AddBook.LookupFailed "9780345391803"
               sample_page)) = AddBook.emptyForm
  /\ AddBook.f_isbn
       (AddBook.formData
          (fst (AddBook.handleIsbnSearch 7
                  (AddBook.Found
                     (AddBook.mkParsed (Some "Dune") None (Some "0441172717")
                        None None None None))
                  "9780345391803" sample_page))) = "0441172717".
Proof.
  assert (Hnb : ~ blank "9780345391803").
  { intros H. inversion H as [|? ? Hc _]. discriminate Hc. }
  destruct (lookup_ends_with_loading_down 1 AddBook.LookupFailed
              "9780345391803" sample_page Hnb)
    as [Hl [_ [_ [_ [_ [_ [Hfail _]]]]]]].
  destruct (lookup_ends_with_loading_down 7
              (AddBook.Found
                 (AddBook.mkParsed (Some "Dune") None (Some "0441172717")
                    None None None None))
              "9780345391803" sample_page Hnb)
    as [_ [_ [_ [_ [_ [_ [_ Hfound]]]]]]].
  destruct (Hfound _ eq_refl) as [_ [_ [_ [_ [_ [_ [_ [_ [Hisbn _]]]]]]]]].
  split; [exact Hl|]. split.
  - apply Hfail. reflexivity.
  - apply (Hisbn "0441172717"); [reflexivity | discriminate].
Defined.

(** X24. A text the scanner's validator accepts is always looked up: the
    page's [onDetected] closes the scanner, writes the text into the form's
    ISBN and makes the request for it; if no book is found or the request
    fails, the rest of the form is as it was. *)
Theorem scanned_isbn_is_looked_up (quantity : Z) (answer : AddBook.Lookup)
    (detected : string) (pg : AddBook.Page) :
  ten_or_thirteen_digits detected ->
  let pg' := fst (AddBook.handleScannerDetection quantity answer detected pg) in
  AddBook.showScanner pg' = false
  /\ AddBook.isbnLoading pg' = false
  /\ (exists rest,
        snd (AddBook.handleScannerDetection quantity answer detected pg)
        = AddBook.SearchByISBN detected :: rest)
  /\ AddBook.f_isbn (AddBook.formData pg') <> ""
  /\ (answer = AddBook.NotFound \/ answer = AddBook.LookupFailed ->
      AddBook.formData pg' = AddBook.with_isbn detected (AddBook.formData pg)).
Proof.
  intros Hd. pose proof (isbn_digits_not_blank detected Hd) as Hnb.
  pose proof (not_blank_not_empty detected Hnb) as Hne.
  unfold AddBook.handleScannerDetection, AddBook.handleIsbnSearch.
  rewrite (not_blank_lookup detected Hnb).
  destruct answer as [parsed| |]; simpl.
  - split; [reflexivity|]. split; [reflexivity|]. split; [eauto|]. split.
    + unfold Js.or_else.
      destruct (AddBook.p_isbn parsed) as [v|]; [|exact Hne].
      destruct (Js.truthy v) eqn:Hv; [now apply truthy_nonempty | exact Hne].
    + intros [Heq|Heq]; discriminate Heq.
  - split; [reflexivity|]. split; [reflexivity|]. split; [eauto|].
    split; [exact Hne | reflexivity].
  - split; [reflexivity|]. split; [reflexivity|]. split; [eauto|].
    split; [exact Hne | reflexivity].
Qed.

Lemma scanned_isbn_is_looked_up_witness :
  AddBook.showScanner
    (fst (AddBook.handleScannerDetection 1 AddBook.NotFound "9780345391803"
            sample_page)) = false
  /\ AddBook.formData
       (fst (AddBook.handleScannerDetection 1 AddBook.NotFound "9780345391803"
               sample_page))
     = AddBook.with_isbn "9780345391803" AddBook.emptyForm.
Proof.
  assert (Hd : ten_or_thirteen_digits "9780345391803")
    by (split; [right; reflexivity | repeat constructor]).
  destruct (scanned_isbn_is_looked_up 1 AddBook.NotFound "9780345391803"
              sample_page Hd) as [Hs [_ [_ [_ Hf]]]].
  split; [exact Hs | apply Hf; now left].
Defined.

(** ** Loading a book and saving it back *)

(** X25. Loading a book into the form and saving it unchanged rewrites that
    book in place: id, title, author, ISBN, quantity, available quantity,
    creation date and other fields are kept, while an absent publisher,
    description or cover comes back as the empty string.  Loading an id no
    book has leaves the form alone, reports "Book not found" and leaves for
    the catalog. *)
Theorem loaded_book_saves_back (parseInt : string -> AddBook.JsNumber)
    (i now : string) (pg : AddBook.Page) :
  i <> "" ->
  (forall pre old post,
      AddBook.mockBooks pg = pre ++ old :: post ->
      (forall b, In b pre -> AddBook.b_id b <> i) -> AddBook.b_id old = i ->
      AddBook.b_title old <> "" -> AddBook.b_author old <> "" ->
      AddBook.b_isbn old <> "" ->
      let loaded := fst (AddBook.fetchBook (Some i) pg) in
      AddBook.formData loaded = AddBook.formOfBook old
      /\ AddBook.loading loaded = false
      /\ exists b,
           AddBook.mockBooks
             (fst (AddBook.handleSubmit parseInt (AddBook.formData loaded)
                     (Some i) now loaded)) = pre ++ b :: post
           /\ AddBook.b_id b = AddBook.b_id old
           /\ AddBook.b_title b = AddBook.b_title old
           /\ AddBook.b_author b = AddBook.b_author old
           /\ AddBook.b_isbn b = AddBook.b_isbn old
           /\ AddBook.b_quantity b = AddBook.b_quantity old
           /\ AddBook.b_availableQuantity b = AddBook.b_availableQuantity old
           /\ AddBook.b_createdAt b = AddBook.b_createdAt old
           /\ AddBook.b_others b = AddBook.b_others old
           /\ AddBook.b_publisher b
              = Some (AddBook.orEmpty (AddBook.b_publisher old))
           /\ AddBook.b_description b
              = Some (AddBook.orEmpty (AddBook.b_description old))
           /\ AddBook.b_cover b = Some (AddBook.orEmpty (AddBook.b_cover old)))
  /\ ((forall b, In b (AddBook.mockBooks pg) -> AddBook.b_id b <> i) ->
      AddBook.fetchBook (Some i) pg
      = (AddBook.with_loading false (AddBook.with_loading true pg),
         [AddBook.ToastErr "Book not found"; AddBook.Navigate "/catalog"])).
Proof.
  intros Hid. split.
  - intros pre old post Heq Hpre Hold Ht Ha Hi loaded.
    assert (Hfind : List.find (AddBook.hasId (Some i)) (AddBook.mockBooks pg)
                    = Some old).
    { rewrite Heq. apply find_first_match.
      - intros b Hb. apply hasId_false. now apply Hpre.
      - now apply hasId_true. }
    assert (Hloaded : loaded
              = AddBook.with_loading false
                  (AddBook.with_formData (AddBook.formOfBook old)
                     (AddBook.with_loading true pg))).
    { unfold loaded, AddBook.fetchBook. simpl. now rewrite Hfind. }
    rewrite Hloaded. simpl. split; [reflexivity|]. split; [reflexivity|].
    unfold AddBook.handleSubmit, AddBook.handleSubmitAt.
    rewrite (required_fields_present (AddBook.formOfBook old) Ht Ha Hi).
    simpl AddBook.isEditMode. apply truthy_nonempty in Hid. rewrite Hid.
    simpl. rewrite Heq.
    rewrite (replaceFirst_found (AddBook.hasId (Some i)) _ pre old post).
    + simpl. eexists. repeat split.
    + intros b Hb. apply hasId_false. now apply Hpre.
    + now apply hasId_true.
  - intros Hnone. unfold AddBook.fetchBook. simpl.
    rewrite (find_no_match (AddBook.hasId (Some i)) (AddBook.mockBooks pg)).
    + reflexivity.
    + intros b Hb. apply hasId_false. now apply Hnone.
Qed.

Lemma loaded_book_saves_back_witness :
  exists b,
    AddBook.mockBooks
      (fst (AddBook.handleSubmit parse_nothing
              (AddBook.formData (fst (AddBook.fetchBook (Some "2") sample_page)))
              (Some "2") "2024-05-01"
              (fst (AddBook.fetchBook (Some "2") sample_page))))
    = [sample_book "1" "Dune"; b]
    /\ AddBook.b_title b = "Emma"
    /\ AddBook.b_publisher b = Some "".
Proof.
  assert (Hid : "2" <> "") by discriminate.
  destruct (loaded_book_saves_back parse_nothing "2" "2024-05-01" sample_page
              Hid) as [Hfound _].
  destruct (Hfound [sample_book "1" "Dune"] (sample_book "2" "Emma") [])
    as [_ [_ [b [Hb [_ [Ht [_ [_ [_ [_ [_ [_ [Hp _]]]]]]]]]]]]].
  - reflexivity.
  - intros b [<-|[]]. discriminate.
  - reflexivity.
  - discriminate.
  - discriminate.
  - discriminate.
  - exists b. repeat split; assumption.
Defined.

(** ** The quantity field *)

(** X26. The quantity typed into the field is stored as it was parsed,
    negative values included; only [NaN] and 0 are replaced by 1.  A submit
    does not look at the quantity: the book it appends carries the typed
    value as quantity and as available quantity. *)
Theorem typed_quantity_is_not_validated (parseInt : string -> AddBook.JsNumber)
    (parsed : AddBook.JsNumber) (id : option string) (now : string)
    (pg : AddBook.Page) :
  let typed := fst (AddBook.handleQuantityInput parsed pg) in
  (parsed = AddBook.NaN \/ parsed = AddBook.Int 0 ->
   AddBook.f_quantity (AddBook.formData typed) = 1%Z)
  /\ (forall z, parsed = AddBook.Int z -> z <> 0%Z ->
      AddBook.f_quantity (AddBook.formData typed) = z
      /\ (AddBook.f_title (AddBook.formData pg) <> "" ->
          AddBook.f_author (AddBook.formData pg) <> "" ->
          AddBook.f_isbn (AddBook.formData pg) <> "" ->
          AddBook.isEditMode id = false ->
          exists b,
            AddBook.mockBooks
              (fst (AddBook.handleSubmit parseInt (AddBook.formData typed) id
                      now typed)) = AddBook.mockBooks pg ++ [b]
            /\ AddBook.b_quantity b = z
            /\ AddBook.b_availableQuantity b = z)).
Proof.
  split.
  - intros [-> | ->]; reflexivity.
  - intros z -> Hz.
    assert (Hq : AddBook.f_quantity
                   (AddBook.formData
                      (fst (AddBook.handleQuantityInput (AddBook.Int z) pg))) = z).
    { simpl. destruct (Z.eqb_spec z 0); [contradiction | reflexivity]. }
    split; [exact Hq|].
    intros Ht Ha Hi Hmode. unfold AddBook.handleSubmit, AddBook.handleSubmitAt.
    rewrite (required_fields_present
               (AddBook.formData
                  (fst (AddBook.handleQuantityInput (AddBook.Int z) pg)))
               Ht Ha Hi), Hmode.
    eexists. split; [reflexivity|]. split; exact Hq.
Qed.

Lemma typed_quantity_is_not_validated_witness :
  AddBook.f_quantity
    (AddBook.formData
       (fst (AddBook.handleQuantityInput (AddBook.Int (-5)) sample_page)))
  = (-5)%Z.
Proof.
  destruct (typed_quantity_is_not_validated parse_nothing (AddBook.Int (-5))
              None "2024-05-01" sample_page) as [_ H].
  apply (H (-5)%Z eq_refl). discriminate.
Defined.
